(** * pyicloud reminders service: record unmarshalling, list materialisation
      and cursor pagination

    Shallow embedding of [pyicloud/services/reminders.py].  Python values are
    an inductive type [pyval]; a Python [dict] is an association list in
    insertion order; exceptions are a sum type; the logger and the HTTP
    session are threaded explicitly. *)

From Stdlib Require Import String Ascii List ZArith Bool Lia.
Import ListNotations.
Set Warnings "-register-all".
Local Open Scope string_scope.

(** ** Strings: the pieces of [str] that the service uses *)

Definition is_upper (c : ascii) : bool :=
  let n := nat_of_ascii c in (65 <=? n)%nat && (n <=? 90)%nat.

Definition is_lower (c : ascii) : bool :=
  let n := nat_of_ascii c in (97 <=? n)%nat && (n <=? 122)%nat.

Definition lower_char (c : ascii) : ascii :=
  if is_upper c then ascii_of_nat (nat_of_ascii c + 32) else c.

(** [str.lower()] on the ASCII range. *)
Fixpoint lower (s : string) : string :=
  match s with
  | EmptyString => EmptyString
  | String c rest => String (lower_char c) (lower rest)
  end.

(** [str.startswith]. *)
Fixpoint startswith (p s : string) : bool :=
  match p, s with
  | EmptyString, _ => true
  | String _ _, EmptyString => false
  | String a p', String b s' => Ascii.eqb a b && startswith p' s'
  end.

(** [str.replace(old, new)] for a non-empty [old]: a left-to-right scan that
    replaces every non-overlapping occurrence.  [skip] counts the characters
    of a matched occurrence that are still to be dropped. *)
Fixpoint replace_go (old new : string) (skip : nat) (s : string) : string :=
  match s with
  | EmptyString => EmptyString
  | String c rest =>
      match skip with
      | S k => replace_go old new k rest
      | O =>
          if startswith old s
          then new ++ replace_go old new (String.length old - 1) rest
          else String c (replace_go old new 0 rest)
      end
  end.

Definition replace (old new s : string) : string := replace_go old new 0 s.

(** The zero-width matches of
    [(?<=[a-z])(?=[A-Z])|(?<=[A-Z])(?=[A-Z][a-z])]: is there a match between
    [prev] and [cur], the text after [cur] being [rest]? *)
Definition snake_case_pattern (prev cur : ascii) (rest : string) : bool :=
  (is_lower prev && is_upper cur)
  || (is_upper prev && is_upper cur
      && match rest with
         | String next _ => is_lower next
         | EmptyString => false
         end).

(** [snake_case_pattern.sub("_", data)]: an underscore is inserted at every
    match; no match is possible before the first or after the last
    character. *)
Fixpoint sub_after (prev : ascii) (s : string) : string :=
  match s with
  | EmptyString => EmptyString
  | String c rest =>
      if snake_case_pattern prev c rest
      then String "_" (String c (sub_after c rest))
      else String c (sub_after c rest)
  end.

Definition snake_case_sub (s : string) : string :=
  match s with
  | EmptyString => EmptyString
  | String c rest => String c (sub_after c rest)
  end.

Definition to_snake_case (data : string) : string :=
  replace "_i_ds" "_ids" (lower (snake_case_sub data)).

(** ** Python values

    The JSON values of the wire format together with the native values the
    service builds from them.  An instant is kept symbolically, as the
    timestamp it was converted from; the wire format's non-integral numbers
    do not occur in the records the service reads and are left out. *)

Inductive SortingStyleEnum : Type :=
| MANUAL
| DISPLAY_DATE_ASCENDING
| DISPLAY_DATE_DESCENDING
| TITLE_ASCENDING
| TITLE_DESCENDING.

Inductive datetime : Type :=
| FromMillis (ts : Z)     (* datetime.fromtimestamp(ts / 1000.0, utc) *)
| FromSeconds (ts : Z).   (* datetime.fromtimestamp(ts, utc) *)

Inductive pyval : Type :=
| PNone
| PBool (b : bool)
| PInt (z : Z)
| PStr (s : string)
| PList (l : list pyval)
| PDict (d : list (string * pyval))
| PTuple (l : list pyval)
| PDatetime (d : datetime)
| PEnum (e : SortingStyleEnum).

(** A [dict] with [str] keys, in insertion order. *)
Definition dict : Type := list (string * pyval).

Inductive exn : Type :=
| AssertionError
| ValueError (msg : string)
| KeyError (arg : string)
| TypeError
| AttributeError
| OverflowError
| OSError
| PyiCloudAPIResponseException (reason : string)
| PyiCloudServiceNotActivatedException
| TransportError.

Inductive result (A : Type) : Type :=
| Ok (a : A)
| Raise (e : exn).
Arguments Ok {A} a.
Arguments Raise {A} e.

(** *** Dictionaries *)

Fixpoint dict_get (k : string) (d : dict) : option pyval :=
  match d with
  | [] => None
  | (k', v) :: d' => if k =? k' then Some v else dict_get k d'
  end.

Definition dict_mem (k : string) (d : dict) : bool :=
  match dict_get k d with Some _ => true | None => false end.

(** [d[k] = v]: an existing key keeps its place. *)
Fixpoint dict_set (k : string) (v : pyval) (d : dict) : dict :=
  match d with
  | [] => [(k, v)]
  | (k', v') :: d' =>
      if k =? k' then (k, v) :: d' else (k', v') :: dict_set k v d'
  end.

Fixpoint dict_remove (k : string) (d : dict) : dict :=
  match d with
  | [] => []
  | (k', v) :: d' => if k =? k' then d' else (k', v) :: dict_remove k d'
  end.

(** [d[k]]. *)
Definition dict_item (d : dict) (k : string) : result pyval :=
  match dict_get k d with
  | Some v => Ok v
  | None => Raise (KeyError k)
  end.

(** [d.get(k, default)]. *)
Definition dict_get_default (d : dict) (k : string) (default : pyval) : pyval :=
  match dict_get k d with
  | Some v => v
  | None => default
  end.

(** [del d[k]]. *)
Definition dict_del (d : dict) (k : string) : result dict :=
  if dict_mem k d then Ok (dict_remove k d) else Raise (KeyError k).

(** [d.pop(k)]. *)
Definition dict_pop (d : dict) (k : string) : result (pyval * dict) :=
  match dict_get k d with
  | Some v => Ok (v, dict_remove k d)
  | None => Raise (KeyError k)
  end.

Definition in_list (k : string) (l : list string) : bool :=
  existsb (String.eqb k) l.

(** *** Operators *)

(** [v[k]] for a [str] subscript. *)
Definition getitem (v : pyval) (k : string) : result pyval :=
  match v with
  | PDict d => dict_item d k
  | _ => Raise TypeError
  end.

(** [v.items()]. *)
Definition items (v : pyval) : result dict :=
  match v with
  | PDict d => Ok d
  | _ => Raise AttributeError
  end.

Definition enum_value (e : SortingStyleEnum) : string :=
  match e with
  | MANUAL => "manual"
  | DISPLAY_DATE_ASCENDING => "displayDate_asc"
  | DISPLAY_DATE_DESCENDING => "displayDate_desc"
  | TITLE_ASCENDING => "title_asc"
  | TITLE_DESCENDING => "title_desc"
  end.

(** [v.get(k, default)]. *)
Definition get_method (v : pyval) (k : string) (default : pyval)
  : result pyval :=
  match v with
  | PDict d => Ok (dict_get_default d k default)
  | _ => Raise AttributeError
  end.

(** The text of a [str]; the enumeration derives from [str]. *)
Definition as_str (v : pyval) : option string :=
  match v with
  | PStr s => Some s
  | PEnum e => Some (enum_value e)
  | _ => None
  end.

(** [type(v).__name__]. *)
Definition type_name (v : pyval) : string :=
  match v with
  | PNone => "NoneType"
  | PBool _ => "bool"
  | PInt _ => "int"
  | PStr _ => "str"
  | PList _ => "list"
  | PDict _ => "dict"
  | PTuple _ => "tuple"
  | PDatetime _ => "datetime"
  | PEnum _ => "SortingStyleEnum"
  end.

(** [v == s] for a [str] constant [s]. *)
Definition eq_str (v : pyval) (s : string) : bool :=
  match v with
  | PStr t => t =? s
  | PEnum e => enum_value e =? s
  | _ => false
  end.

(** [v == 1]. *)
Definition eq_one (v : pyval) : bool :=
  match v with
  | PInt z => (z =? 1)%Z
  | PBool b => b
  | _ => false
  end.

(** [bool(v)]. *)
Definition truthy (v : pyval) : bool :=
  match v with
  | PNone => false
  | PBool b => b
  | PInt z => negb (z =? 0)%Z
  | PStr s => negb (s =? "")
  | PList l | PTuple l => match l with [] => false | _ => true end
  | PDict d => match d with [] => false | _ => true end
  | PDatetime _ => true
  | PEnum _ => true
  end.

(** *** [int(v)] *)

Definition is_space (c : ascii) : bool :=
  let n := nat_of_ascii c in
  (n =? 32)%nat || ((9 <=? n)%nat && (n <=? 13)%nat)
  || ((28 <=? n)%nat && (n <=? 31)%nat).

Definition digit_of (c : ascii) : option Z :=
  let n := nat_of_ascii c in
  if (48 <=? n)%nat && (n <=? 57)%nat then Some (Z.of_nat (n - 48)) else None.

Fixpoint lstrip (s : string) : string :=
  match s with
  | String c rest => if is_space c then lstrip rest else s
  | EmptyString => EmptyString
  end.

(** Decimal digits, single underscores allowed between two digits, then
    trailing white space only.  [after_digit] tells whether the previous
    character was a digit. *)
Fixpoint digits (acc : Z) (after_digit : bool) (s : string) : option Z :=
  match s with
  | EmptyString => if after_digit then Some acc else None
  | String c rest =>
      match digit_of c with
      | Some d => digits (10 * acc + d) true rest
      | None =>
          if after_digit && Ascii.eqb c "_" then
            match rest with
            | String c' _ =>
                match digit_of c' with
                | Some _ => digits acc false rest
                | None => None
                end
            | EmptyString => None
            end
          else if after_digit && (lstrip s =? "") then Some acc
          else None
      end
  end.

Definition parse_int (s : string) : option Z :=
  match lstrip s with
  | String "-" rest => option_map Z.opp (digits 0 false rest)
  | String "+" rest => digits 0 false rest
  | t => digits 0 false t
  end.

Definition py_int (v : pyval) : result pyval :=
  match v with
  | PInt z => Ok (PInt z)
  | PBool b => Ok (PInt (if b then 1 else 0))
  | PStr s =>
      match parse_int s with
      | Some z => Ok (PInt z)
      | None => Raise (ValueError "invalid literal for int()")
      end
  | PEnum _ => Raise (ValueError "invalid literal for int()")
  | _ => Raise TypeError
  end.

(** *** [datetime.fromtimestamp(t, timezone.utc)]

    An instant of the years 1 to 9999 converts.  Outside these years CPython
    raises [ValueError] as long as the C library can still break the time
    down (glibc: the year fits a C [int]), [OSError] beyond that, and
    [OverflowError] once the value leaves the 64-bit [time_t]. *)

Inductive conversion : Type :=
| Instant (d : datetime)
| YearOutOfRange
| Fault (e : exn).

Definition MIN_SECONDS : Z := -62135596800.
Definition MAX_SECONDS : Z := 253402300799.
Definition GMTIME_MIN : Z := -67768040609740800.
Definition GMTIME_MAX : Z := 67767976233532799.
Definition TIME_T_MAX : Z := 9223372036854775807.

Definition fromtimestamp (seconds : Z) (d : datetime) : conversion :=
  if ((MIN_SECONDS <=? seconds) && (seconds <=? MAX_SECONDS))%Z then Instant d
  else if ((GMTIME_MIN <=? seconds) && (seconds <=? GMTIME_MAX))%Z
  then YearOutOfRange
  else if ((- TIME_T_MAX - 1 <=? seconds) && (seconds <=? TIME_T_MAX))%Z
  then Fault OSError
  else Fault OverflowError.

(** The number a timestamp argument stands for; [bool] is an [int]. *)
Definition as_number (v : pyval) : option Z :=
  match v with
  | PInt z => Some z
  | PBool b => Some (if b then 1 else 0)%Z
  | _ => None
  end.

(** The [try ... except ValueError: return None] of both converters. *)
Definition caught (c : conversion) : result pyval :=
  match c with
  | Instant d => Ok (PDatetime d)
  | YearOutOfRange => Ok PNone
  | Fault e => Raise e
  end.

Definition timestamp_milliseconds_to_datetime (ts : pyval) : result pyval :=
  match as_number ts with
  | Some z => caught (fromtimestamp (z / 1000) (FromMillis z))
  | None => Raise TypeError
  end.

Definition timestamp_seconds_to_datetime (ts : pyval) : result pyval :=
  match as_number ts with
  | Some z => caught (fromtimestamp z (FromSeconds z))
  | None => Raise TypeError
  end.

(** ** Effects: the logger, standard output and the HTTP session

    [responses] are the JSON bodies the session will answer with, in order;
    [requests] are the JSON bodies posted so far (an empty body for a GET);
    [log] collects what the logger and [print] received. *)

Inductive diag : Type :=
| Warning (msg : string) (args : list pyval)
| Printed (v : pyval).

Record world : Type := {
  responses : list pyval;
  requests : list pyval;
  log : list diag
}.

Definition M (A : Type) : Type := world -> result A * world.

Definition ret {A} (a : A) : M A := fun w => (Ok a, w).

Definition raise {A} (e : exn) : M A := fun w => (Raise e, w).

Definition bind {A B} (m : M A) (k : A -> M B) : M B :=
  fun w =>
    match m w with
    | (Ok a, w') => k a w'
    | (Raise e, w') => (Raise e, w')
    end.

Definition lift {A} (r : result A) : M A := fun w => (r, w).

Notation "x <- m ;; k" := (bind m (fun x => k))
  (at level 61, m at next level, right associativity).
Notation "' pat <- m ;; k" := (bind m (fun x => match x with pat => k end))
  (at level 61, pat pattern, m at next level, right associativity).
Notation "m ;;; k" := (bind m (fun _ => k))
  (at level 61, right associativity).

Definition emit (d : diag) : M unit :=
  fun w => (Ok tt, {| responses := responses w;
                      requests := requests w;
                      log := (log w ++ [d])%list |}).

(** [try: m except Exception as e: handler; raise e]. *)
Definition reraising {A} (m : M A) (handler : M unit) : M A :=
  fun w =>
    match m w with
    | (Ok a, w') => (Ok a, w')
    | (Raise e, w') =>
        match handler w' with
        | (Ok _, w'') => (Raise e, w'')
        | (Raise e', w'') => (Raise e', w'')
        end
    end.

(** A monadic left fold: a [for] loop that carries [acc]. *)
Fixpoint for_each {A B} (body : B -> A -> M B) (l : list A) (acc : B) : M B :=
  match l with
  | [] => ret acc
  | a :: l' => acc' <- body acc a ;; for_each body l' acc'
  end.

(** ** Unmarshalling *)

Definition from_string (value : pyval) : result SortingStyleEnum :=
  if eq_str value "manual" then Ok MANUAL
  else if eq_str value "displayDate_asc" then Ok DISPLAY_DATE_ASCENDING
  else if eq_str value "displayDate_desc" then Ok DISPLAY_DATE_DESCENDING
  else if eq_str value "title_asc" then Ok TITLE_ASCENDING
  else if eq_str value "title_desc" then Ok TITLE_DESCENDING
  else Raise (ValueError "Unknown sorting style").

Definition no_activity : dict :=
  [("timestamp", PNone); ("user_id", PNone); ("device_id", PNone)].

Definition unmarshall_activity (data : pyval) : result dict :=
  let result := no_activity in
  match
    match data with
    | PBool true => Raise AssertionError
    | PBool false => Ok tt
    | PDict _ => Ok tt
    | _ => Raise (ValueError "Invalid activity data (expected a dict or boolean False)")
    end
  with
  | Raise e => Raise e
  | Ok _ =>
      if negb (truthy data) then Ok result
      else
        match data with
        | PDict d =>
            match dict_get "timestamp" d with
            | None => Raise (ValueError "Invalid activity data (missing 'timestamp')")
            | Some ts =>
                match timestamp_milliseconds_to_datetime ts with
                | Raise e => Raise e
                | Ok PNone => Raise (ValueError "Invalid timestamp")
                | Ok t =>
                    let result := dict_set "timestamp" t result in
                    let result :=
                      dict_set "user_id"
                        (dict_get_default d "userRecordName" PNone) result in
                    let result :=
                      dict_set "device_id"
                        (dict_get_default d "deviceID" PNone) result in
                    Ok result
                end
            end
        | _ => Raise TypeError
        end
  end.

Section Reminders.

(** [json.loads] on a [str]; [None] stands for [json.JSONDecodeError]. *)
Variable json_loads : string -> option pyval.


(** The chain on [field_value["type"]]: the value first stored under the
    field's name.  [record_id] is [result.get("record_id", "unknown")]. *)
Definition coerce (record_id : pyval) (field_name : string)
    (field_value : pyval) : M pyval :=
  tag <- lift (getitem field_value "type") ;;
  if eq_str tag "STRING" then lift (getitem field_value "value")
  else if eq_str tag "INT64" then
    v <- lift (getitem field_value "value") ;; lift (py_int v)
  else if eq_str tag "BOOLEAN" then
    v <- lift (getitem field_value "value") ;; ret (PBool (truthy v))
  else if eq_str tag "TIMESTAMP" then
    v <- lift (getitem field_value "value") ;;
    lift (timestamp_milliseconds_to_datetime v)
  else if eq_str tag "ASSETID" then lift (getitem field_value "value")
  else
    emit (Warning "Unknown field type %s for field %s in record %s"
            [tag; PStr field_name; record_id]) ;;;
    ret field_value.

Definition JSON_FIELDS : list string :=
  ["color"; "reminder_ids"; "resolution_token_map"].

Definition BOOLEAN_FIELDS : list string :=
  ["deleted"; "imported"; "is_group"; "is_linked_to_account";
   "should_categorize_grocery_items"].

(** What follows the chain in a turn of the loop: the handling that goes by
    the field's name.  [v] is [fields[field_name]], as the chain stored it. *)
Definition post_process (data : dict) (record_id : pyval)
    (field_name : string) (field_value v : pyval) (fields : dict) : M dict :=
  if in_list field_name JSON_FIELDS then
    text <- lift (getitem field_value "value") ;;
    match as_str text with
    | Some s =>
        match json_loads s with
        | Some parsed => ret (dict_set field_name parsed fields)
        | None =>
            emit (Warning "Failed to parse field %s with value %s in record %s"
                    [PStr field_name; text; record_id]) ;;;
            ret (dict_set field_name (PDict []) fields)
        end
    | None => raise TypeError
    end
  else if in_list field_name BOOLEAN_FIELDS then
    ret (dict_set field_name (PBool (eq_one v)) fields)
  else if in_list field_name ["sorting_style"] then
    raw_fields <- lift (dict_item data "fields") ;;
    value <- lift (get_method raw_fields field_name (PStr "manual")) ;;
    style <- lift (from_string value) ;;
    ret (dict_set field_name (PTuple [PEnum style]) fields)
  else ret fields.

(** One turn of the loop over [data_value.items()]; [data] is the record
    being unmarshalled. *)
Definition unmarshall_field (data : dict) (record_id : pyval)
    (fields : dict) (entry : string * pyval) : M dict :=
  let field_name := to_snake_case (fst entry) in
  let field_value := snd entry in
  v <- coerce record_id field_name field_value ;;
  post_process data record_id field_name field_value v
    (dict_set field_name v fields).

Definition is_primitive (v : pyval) : bool :=
  match v with
  | PStr _ | PInt _ | PBool _ | PEnum _ => true
  | _ => false
  end.

(** One turn of the loop over [data.items()]. *)
Definition unmarshall_item (data : dict) (result : dict)
    (entry : string * pyval) : M dict :=
  let data_key := fst entry in
  let data_value := snd entry in
  let record_id := dict_get_default result "record_id" (PStr "unknown") in
  if data_key =? "recordName" then ret (dict_set "record_id" data_value result)
  else if in_list data_key ["created"; "deleted"; "modified"] then
    parsed <- lift (unmarshall_activity data_value) ;;
    timestamp <- lift (dict_item parsed "timestamp") ;;
    user_id <- lift (dict_item parsed "user_id") ;;
    device_id <- lift (dict_item parsed "device_id") ;;
    let prefix := to_snake_case data_key in
    let result := dict_set (prefix ++ "_date") timestamp result in
    let result := dict_set (prefix ++ "_by_user") user_id result in
    let result := dict_set (prefix ++ "_by_device") device_id result in
    ret result
  else if data_key =? "expirationTime" then
    t <- lift (timestamp_seconds_to_datetime data_value) ;;
    ret (dict_set "expiration_date" t result)
  else if data_key =? "fields" then
    entries <- lift (items data_value) ;;
    fields <- for_each (unmarshall_field data record_id) entries [] ;;
    fields <-
      (if negb (dict_mem "name" fields)
          || negb (truthy (dict_get_default fields "name" PNone))
       then
         emit (Warning
                 "Field 'name' is missing or empty in record %s. Using 'Unknown' as default."
                 [record_id]) ;;;
         ret (dict_set "name" (PStr "Unknown") fields)
       else ret fields) ;;
    ret (dict_set "fields" (PDict fields) result)
  else if data_key =? "share" then
    ret (dict_set (to_snake_case data_key) data_value result)
  else if is_primitive data_value then
    ret (dict_set (to_snake_case data_key) data_value result)
  else
    emit (Warning
            "Field %s has complex type %s but no special handling. record_id: %s. value: %s"
            [PStr data_key; PStr (type_name data_value); record_id;
             data_value]) ;;;
    ret (dict_set (to_snake_case data_key) data_value result).

Definition unmarshall (data : dict) : M dict :=
  for_each (unmarshall_item data) data [].

(** ** Reminder lists *)

Inductive ListVariant : Type :=
| Standard
| Shared
| Enhanced.

(** A list object: its class and the keyword arguments it was built from
    ([service] apart). *)
Record RemindersList : Type := {
  variant : ListVariant;
  attrs : dict
}.

(** [self.name], set from the [list_name] argument. *)
Definition name (l : RemindersList) : pyval :=
  dict_get_default (attrs l) "list_name" PNone.

Definition list_id (l : RemindersList) : pyval :=
  dict_get_default (attrs l) "list_id" PNone.

Definition BASE_REQUIRED : list string :=
  ["list_id"; "created_date"; "created_by_user"; "created_by_device";
   "modified_date"; "modified_by_user"; "modified_by_device"].

Definition BASE_OPTIONAL : list string :=
  ["deleted_date"; "deleted_by_user"; "deleted_by_device"; "badge_emblem";
   "chain_private_key"; "chain_protection_info"; "color"; "count"; "deleted";
   "displayed_hostname"; "expiration_date";
   "grocery_local_corrections_as_data"; "grocery_local_corrections_checksum";
   "grocery_locale_id"; "imported"; "imported_date"; "is_group";
   "is_linked_to_account"; "list_name";
   "memberships_of_reminders_in_sections_as_data";
   "memberships_of_reminders_in_sections_checksum"; "parent_list";
   "pinned_date"; "plugin_fields"; "record_change_tag"; "reminder_ids_asset";
   "reminder_ids"; "resolution_token_map"; "section_ids_ordering_as_data";
   "share"; "short_guid"; "should_categorize_grocery_items"; "sorting_style";
   "stable_url"].

(** Binding keyword arguments to a signature without [**kwargs]: every
    argument must be a parameter and every required parameter must be
    given. *)
Definition bind_arguments (required optional : list string) (kwargs : dict)
  : result unit :=
  if forallb (fun kv => in_list (fst kv) (required ++ optional)) kwargs
     && forallb (fun k => dict_mem k kwargs) required
  then Ok tt
  else Raise TypeError.

Definition BaseRemindersList_init (kwargs : dict) : result unit :=
  bind_arguments BASE_REQUIRED BASE_OPTIONAL kwargs.

Definition StandardRemindersList_init (kwargs : dict) : M unit :=
  let kwargs := dict_remove "expiration_date" kwargs in
  let kwargs := dict_remove "parent_list" kwargs in
  reraising (lift (BaseRemindersList_init kwargs))
            (emit (Printed (PDict kwargs))).

Definition SharedRemindersList_init (kwargs : dict) : M unit :=
  if dict_mem "share" kwargs && dict_mem "stable_url" kwargs
     && dict_mem "short_guid" kwargs
  then
    let kwargs := dict_remove "share" kwargs in
    let kwargs := dict_remove "stable_url" kwargs in
    let kwargs := dict_remove "short_guid" kwargs in
    let kwargs := dict_remove "should_auto_categorize_items" kwargs in
    StandardRemindersList_init kwargs
  else raise TypeError.

Definition EnhancedRemindersList_init (kwargs : dict) : M unit :=
  let kwargs := dict_remove "should_auto_categorize_items" kwargs in
  let kwargs := dict_remove "should_categorize_grocery_items" kwargs in
  StandardRemindersList_init kwargs.

(** [cls(service=service, **data)]: [data] may name neither [service] nor
    [self] again. *)
Definition from_data (cls : ListVariant) (data : dict) : M RemindersList :=
  if dict_mem "service" data || dict_mem "self" data then raise TypeError
  else
    match cls with
    | Standard => StandardRemindersList_init data
    | Shared => SharedRemindersList_init data
    | Enhanced => EnhancedRemindersList_init data
    end ;;;
    ret {| variant := cls; attrs := data |}.

(** [v.pop(k)] for a [str] [k]. *)
Definition pop_method (v : pyval) (k : string) : result (pyval * pyval) :=
  match v with
  | PDict d =>
      match dict_pop d k with
      | Ok (x, d') => Ok (x, PDict d')
      | Raise e => Raise e
      end
  | PList _ => Raise TypeError
  | _ => Raise AttributeError
  end.

(** One turn of the loop that moves the fields next to the other
    attributes. *)
Definition merge_field (data : dict) (entry : string * pyval) : M dict :=
  let field_name := fst entry in
  let field_value := snd entry in
  if dict_mem field_name data && negb (in_list field_name ["name"])
  then raise (KeyError ("Field '" ++ field_name ++ "' already exists in data"))
  else ret (dict_set field_name field_value data).

(** [BaseRemindersList.from_record], up to the [try] statement: the
    flattened attributes. *)
Definition flatten_record (record : pyval) : M dict :=
  record_type <- lift (getitem record "recordType") ;;
  if negb (eq_str record_type "List")
  then raise (PyiCloudAPIResponseException "Record is not a List")
  else
    entries <- lift (items record) ;;
    data <- unmarshall entries ;;
    if negb (truthy (PDict data))
    then raise (PyiCloudAPIResponseException "Failed to unmarshall record")
    else
      ' (record_id, data) <- lift (dict_pop data "record_id") ;;
      let data := dict_set "list_id" record_id data in
      fields <- lift (dict_item data "fields") ;;
      ' (list_name, fields) <- lift (pop_method fields "name") ;;
      let data := dict_set "fields" fields data in
      let data := dict_set "list_name" list_name data in
      data <- lift (dict_del data "record_type") ;;
      fields <- lift (dict_item data "fields") ;;
      entries <- lift (items fields) ;;
      data <- for_each merge_field entries data ;;
      data <- lift (dict_del data "fields") ;;
      lift (dict_del data "zone_id").

Definition from_record (record : pyval) : M RemindersList :=
  data <- flatten_record record ;;
  reraising
    (if dict_mem "share" data then from_data Shared data
     else if dict_mem "should_categorize_grocery_items" data
          then from_data Enhanced data
          else from_data Standard data)
    (emit (Printed (PDict data))).

(** ** Zones *)

Record ZoneIDObject : Type := {
  zone_name : pyval;
  zone_type : pyval;
  owner_record_name : pyval
}.

Record ZoneObject : Type := {
  zone_id : ZoneIDObject;
  atomic : pyval;
  is_eligible_for_hierarchical_share : pyval;
  is_eligible_for_zone_share : pyval;
  sync_token : pyval
}.

Definition ZoneIDObject_from_record (record : pyval) : result ZoneIDObject :=
  match record with
  | PDict d =>
      if negb (dict_mem "zoneName" d)
      then Raise (PyiCloudAPIResponseException "Record should contain 'zoneName'")
      else if negb (dict_mem "zoneType" d)
      then Raise (PyiCloudAPIResponseException "Record should contain 'zoneType'")
      else if negb (dict_mem "ownerRecordName" d)
      then Raise (PyiCloudAPIResponseException
                    "Record should contain 'ownerRecordName'")
      else Ok {| zone_name := dict_get_default d "zoneName" PNone;
                 zone_type := dict_get_default d "zoneType" PNone;
                 owner_record_name := dict_get_default d "ownerRecordName" PNone |}
  | _ => Raise (PyiCloudAPIResponseException "Record is not a dict")
  end.

Definition ZoneIDObject_to_dict (z : ZoneIDObject) : dict :=
  [("zoneName", zone_name z); ("zoneType", zone_type z);
   ("ownerRecordName", owner_record_name z)].

Definition is_str (v : pyval) : bool :=
  match v with PStr _ | PEnum _ => true | _ => false end.

Definition is_dict (v : pyval) : bool :=
  match v with PDict _ => true | _ => false end.

Definition ZoneObject_from_record (record : pyval) : result ZoneObject :=
  match record with
  | PDict d =>
      if negb (truthy record)
      then Raise (PyiCloudAPIResponseException "Record is empty")
      else if negb (dict_mem "atomic" d)
      then Raise (PyiCloudAPIResponseException
                    "Zone record should contain field 'atomic'")
      else if negb (dict_mem "isEligibleForHierarchicalShare" d)
      then Raise (PyiCloudAPIResponseException
                    "Zone record should contain field 'isisEligibleForHierarchicalShare'")
      else if negb (dict_mem "isEligibleForZoneShare" d)
      then Raise (PyiCloudAPIResponseException
                    "Zone record should contain field 'isEligibleForZoneShare'")
      else
        match dict_get "zoneID" d with
        | None => Raise (PyiCloudAPIResponseException
                           "Zone record should contain field 'zoneID'")
        | Some (PDict z) =>
            if negb (dict_mem "zoneName" z)
            then Raise (PyiCloudAPIResponseException
                          "Zone record's 'zoneID' field should contain 'zoneName'")
            else if negb (dict_mem "zoneType" z)
            then Raise (PyiCloudAPIResponseException
                          "Zone record's 'zoneID' field should contain 'zoneType'")
            else if negb (dict_mem "ownerRecordName" z)
            then Raise (PyiCloudAPIResponseException
                          "Zone record's 'zoneID' field should contain 'ownerRecordName'")
            else if dict_mem "syncToken" d
                    && negb (is_str (dict_get_default d "syncToken" PNone))
            then Raise (PyiCloudAPIResponseException
                          "Zone records field 'syncToken' is optional but must be a str, if present")
            else
              match ZoneIDObject_from_record (PDict z) with
              | Raise e => Raise e
              | Ok zid =>
                  Ok {| zone_id := zid;
                        atomic := dict_get_default d "atomic" PNone;
                        is_eligible_for_hierarchical_share :=
                          dict_get_default d "isEligibleForHierarchicalShare" PNone;
                        is_eligible_for_zone_share :=
                          dict_get_default d "isEligibleForZoneShare" PNone;
                        sync_token := dict_get_default d "syncToken" PNone |}
              end
        | Some _ => Raise (PyiCloudAPIResponseException
                             "Zone record's 'zoneID' field should be a dict")
        end
  | _ => Raise (PyiCloudAPIResponseException "Record is empty")
  end.

(** ** The session *)

(** The elements a [for] loop or [list.extend] draws from [v]. *)
Fixpoint characters (s : string) : list pyval :=
  match s with
  | EmptyString => []
  | String c rest => PStr (String c EmptyString) :: characters rest
  end.

Definition iterate (v : pyval) : result (list pyval) :=
  match v with
  | PList l | PTuple l => Ok l
  | PDict d => Ok (map (fun kv => PStr (fst kv)) d)
  | PStr s => Ok (characters s)
  | PEnum e => Ok (characters (enum_value e))
  | _ => Raise TypeError
  end.

Definition is_none (v : pyval) : bool :=
  match v with PNone => true | _ => false end.

(** The condition of the [while] statement of both fetchers. *)
Definition more_pages (query : dict) : bool :=
  negb (dict_mem "continuationMarker" query)
  || negb (is_none (dict_get_default query "continuationMarker" PNone)).

(** The [while] loop of [_fetch_lists] and [_fetch_reminders], the session
    made explicit: [pending] are the bodies it will answer with, [sent] the
    queries posted so far.  A session with nothing left to answer raises. *)
Fixpoint query_loop (pending : list pyval) (query : dict)
    (records : list pyval) (sent : list pyval) {struct pending}
  : result (list pyval) * list pyval * list pyval :=
  if more_pages query then
    let sent := (sent ++ [PDict query])%list in
    match pending with
    | [] => (Raise TransportError, pending, sent)
    | response :: pending =>
        match getitem response "records" with
        | Raise e => (Raise e, pending, sent)
        | Ok batch =>
            match iterate batch with
            | Raise e => (Raise e, pending, sent)
            | Ok batch =>
                match get_method response "continuationMarker" PNone with
                | Raise e => (Raise e, pending, sent)
                | Ok marker =>
                    query_loop pending
                      (dict_set "continuationMarker" marker query)
                      (records ++ batch)%list sent
                end
            end
        end
    end
  else (Ok records, pending, sent).

Definition fetch_all (query : dict) : M (list pyval) :=
  fun w =>
    match query_loop (responses w) query [] (requests w) with
    | (r, pending, sent) =>
        (r, {| responses := pending; requests := sent; log := log w |})
    end.

(** [session.get(...).json()]. *)
Definition session_get : M pyval :=
  fun w =>
    match responses w with
    | [] =>
        (Raise TransportError,
         {| responses := [];
            requests := (requests w ++ [PNone])%list;
            log := log w |})
    | response :: pending =>
        (Ok response,
         {| responses := pending;
            requests := (requests w ++ [PNone])%list;
            log := log w |})
    end.

(** ** Containers *)

(** What a value is as the key of a [dict]: equal values share a key, a
    [list] or a [dict] is unhashable. *)
Inductive key : Type :=
| KNone
| KInt (z : Z)
| KStr (s : string)
| KInstant (milliseconds : Z)
| KTuple (l : list key).

Fixpoint hash_key (v : pyval) : option key :=
  match v with
  | PNone => Some KNone
  | PBool b => Some (KInt (if b then 1 else 0))
  | PInt z => Some (KInt z)
  | PStr s => Some (KStr s)
  | PEnum e => Some (KStr (enum_value e))
  | PDatetime (FromMillis ts) => Some (KInstant ts)
  | PDatetime (FromSeconds ts) => Some (KInstant (1000 * ts))
  | PTuple l =>
      option_map KTuple
        ((fix keys (l : list pyval) : option (list key) :=
            match l with
            | [] => Some []
            | x :: l' =>
                match hash_key x, keys l' with
                | Some k, Some ks => Some (k :: ks)
                | _, _ => None
                end
            end) l)
  | PList _ | PDict _ => None
  end.

Fixpoint key_eqb (a b : key) : bool :=
  match a, b with
  | KNone, KNone => true
  | KInt x, KInt y => (x =? y)%Z
  | KStr x, KStr y => x =? y
  | KInstant x, KInstant y => (x =? y)%Z
  | KTuple x, KTuple y =>
      (fix all (x y : list key) : bool :=
         match x, y with
         | [], [] => true
         | a :: x', b :: y' => key_eqb a b && all x' y'
         | _, _ => false
         end) x y
  | _, _ => false
  end.

(** The [dict] of [ListsContainer._records]. *)
Definition lists_dict : Type := list (key * RemindersList).

Fixpoint lists_get (k : key) (d : lists_dict) : option RemindersList :=
  match d with
  | [] => None
  | (k', v) :: d' => if key_eqb k k' then Some v else lists_get k d'
  end.

Fixpoint lists_set (k : key) (v : RemindersList) (d : lists_dict)
  : lists_dict :=
  match d with
  | [] => [(k, v)]
  | (k', v') :: d' =>
      if key_eqb k k' then (k', v) :: d' else (k', v') :: lists_set k v d'
  end.

(** [lists[record.name] = record]. *)
Definition store_list (lists : lists_dict) (record : RemindersList)
  : M lists_dict :=
  match hash_key (name record) with
  | Some k => ret (lists_set k record lists)
  | None => raise TypeError
  end.

(** A list comprehension [[f(x) for x in l]]. *)
Definition comprehension {A B} (f : A -> M B) (l : list A) : M (list B) :=
  for_each (fun acc x => y <- f x ;; ret (acc ++ [y])%list) l [].

Definition lists_query (zone : ZoneObject) : dict :=
  [("query", PDict [("recordType", PStr "Lists")]);
   ("resultsLimit", PInt 200);
   ("zoneID", PDict (ZoneIDObject_to_dict (zone_id zone)))].

Definition _fetch_lists (zone : ZoneObject) : M lists_dict :=
  records <- fetch_all (lists_query zone) ;;
  record_objects <- comprehension from_record records ;;
  for_each store_list record_objects [].

Definition _get_fetch_reminders_payload (self : RemindersList)
    (zone : ZoneObject) (include_completed : option bool)
    (lookup_validating_reference : option bool) : dict :=
  let include_completed :=
    match include_completed with Some b => b | None => false end in
  let lookup_validating_reference :=
    match lookup_validating_reference with Some b => b | None => true end in
  [("query",
    PDict
      [("recordType", PStr "reminderList");
       ("filterBy",
        PList
          [PDict
             [("fieldName", PStr "listID");
              ("comparator", PStr "EQUALS");
              ("fieldValue",
               PDict
                 [("value",
                   PDict [("recordName", list_id self);
                          ("action", PStr "VALIDATE")]);
                  ("type", PStr "REFERENCE")])];
           PDict
             [("fieldName", PStr "includeCompleted");
              ("comparator", PStr "EQUALS");
              ("fieldValue",
               PDict
                 [("value", PInt (if include_completed then 1 else 0));
                  ("type", PStr "INT64")])];
           PDict
             [("fieldName", PStr "LookupValidatingReference");
              ("comparator", PStr "EQUALS");
              ("fieldValue",
               PDict
                 [("value",
                   PInt (if lookup_validating_reference then 1 else 0));
                  ("type", PStr "INT64")])]])]);
   ("resultsLimit", PInt 200);
   ("zoneID",
    PDict [("zoneName", zone_name (zone_id zone));
           ("ownerRecordName", owner_record_name (zone_id zone))])].

(** The fetched records are dropped: no reminder is built from them. *)
Definition _fetch_reminders (self : RemindersList) (zone : ZoneObject)
  : M (list (key * pyval)) :=
  records <- fetch_all
               (_get_fetch_reminders_payload self zone (Some false) (Some true)) ;;
  ret [].

Definition _fetch_zones : M (list ZoneObject) :=
  response <- session_get ;;
  zones <- lift (get_method response "zones" (PList [])) ;;
  zones <- lift (iterate zones) ;;
  comprehension (fun record => lift (ZoneObject_from_record record)) zones.

(** The [records] property of [ZonesContainer]: an empty cache is filled. *)
Definition ZonesContainer_records (cache : list ZoneObject)
  : M (list ZoneObject) :=
  match cache with
  | [] => _fetch_zones
  | _ => ret cache
  end.

(** [ZonesContainer.__getitem__]; the cache is returned with the zone. *)
Definition ZonesContainer_getitem (cache : list ZoneObject) (zone : string)
  : M (ZoneObject * list ZoneObject) :=
  records <- ZonesContainer_records cache ;;
  match find (fun record => eq_str (zone_name (zone_id record)) zone) records with
  | Some record => ret (record, records)
  | None => raise (KeyError ("Zone '" ++ zone ++ "' not found."))
  end.

(** ** The service *)

Record RemindersService : Type := {
  all_zones : list ZoneObject;   (* ZonesContainer._records *)
  zone : ZoneObject;
  _lists : lists_dict            (* ListsContainer._records *)
}.

(** [PRIMARY_ZONE["zoneName"]]. *)
Definition PRIMARY_ZONE_NAME : string := "Reminders".

(** [ZoneObject] defines neither [__bool__] nor [__len__]. *)
Definition zone_truthy (z : ZoneObject) : bool := true.

Definition ListsContainer_refresh (zone : ZoneObject) : M lists_dict :=
  records <- _fetch_lists zone ;;
  emit (Printed (PInt (Z.of_nat (List.length records)))) ;;;
  emit (Warning "Refreshed lists: %d" [PInt (Z.of_nat (List.length records))]) ;;;
  ret records.

Definition RemindersService_init : M RemindersService :=
  ' (zone, zones) <- ZonesContainer_getitem [] PRIMARY_ZONE_NAME ;;
  if negb (zone_truthy zone)
  then raise PyiCloudServiceNotActivatedException
  else
    lists <- ListsContainer_refresh zone ;;
    ret {| all_zones := zones; zone := zone; _lists := lists |}.

(** The [records] property of [ListsContainer]. *)
Definition ListsContainer_records (service : RemindersService)
  : M lists_dict :=
  match _lists service with
  | [] => _fetch_lists (zone service)
  | records => ret records
  end.

(** [get_by_id]; the service is returned with its cache as the property
    left it. *)
Definition get_by_id (service : RemindersService) (list_id : string)
  : M (RemindersList * RemindersService) :=
  records <- ListsContainer_records service ;;
  match lists_get (KStr list_id) records with
  | Some l =>
      ret (l, {| all_zones := all_zones service;
                 zone := zone service;
                 _lists := records |})
  | None => raise (KeyError list_id)
  end.

Definition ListsContainer_getitem (service : RemindersService) (id : string)
  : M (RemindersList * RemindersService) :=
  get_by_id service id.

(** [get_by_name]: the first list, in the order of the [dict], whose name is
    [name]. *)
Definition get_by_name (service : RemindersService) (list_name : string)
  : M RemindersList :=
  records <- ListsContainer_records service ;;
  match find (fun kv => eq_str (name (snd kv)) list_name) records with
  | Some kv => ret (snd kv)
  | None => raise (KeyError ("List '" ++ list_name ++ "' not found."))
  end.

End Reminders.

(** ** Vocabulary of the properties *)

Local Open Scope list_scope.




Definition session (pending sent : list pyval) (l : list diag) : world :=
  {| responses := pending; requests := sent; log := l |}.

(** A page of a paginated answer: its records and its continuation marker,
    [None] when the answer has no such key. *)
Record page : Type := {
  batch : list pyval;
  marker : option pyval
}.

Definition response_of (p : page) : pyval :=
  PDict (("records", PList (batch p))
         :: match marker p with
            | Some m => [("continuationMarker", m)]
            | None => []
            end).

(** A page announces a next one when its marker is present and not null. *)
Definition announces_more (p : page) : bool :=
  match marker p with
  | Some m => negb (is_none m)
  | None => false
  end.

Definition token (p : page) : pyval :=
  match marker p with Some m => m | None => PNone end.

(** The queries posted for [front], a run of pages that each announce a next
    one, [query] being the first. *)
Definition queries (query : dict) (front : list page) : list pyval :=
  PDict query
  :: map (fun p => PDict (dict_set "continuationMarker" (token p) query)) front.




Definition not_primary (z : ZoneObject) : bool :=
  negb (eq_str (zone_name (zone_id z)) PRIMARY_ZONE_NAME).

(** The last list of [objs] whose name is the [str] [x]. *)
Definition last_named (x : string) (objs : list RemindersList)
  : option RemindersList :=
  find (fun o => eq_str (name o) x) (rev objs).

(** A [dict] has each key once. *)
Fixpoint unique_keys (d : dict) : bool :=
  match d with
  | [] => true
  | (k, _) :: d' => negb (dict_mem k d') && unique_keys d'
  end.

(** The attribute names a top-level entry of a record is unmarshalled to. *)
Definition produces (entry : string * pyval) (a : string) : bool :=
  let k := fst entry in
  if k =? "recordName" then a =? "record_id"
  else if in_list k ["created"; "deleted"; "modified"] then
    in_list a [(to_snake_case k ++ "_date")%string;
               (to_snake_case k ++ "_by_user")%string;
               (to_snake_case k ++ "_by_device")%string]
  else if k =? "expirationTime" then a =? "expiration_date"
  else if k =? "fields" then a =? "fields"
  else a =? to_snake_case k.

(** Only the key [fields] itself is unmarshalled to the attribute [fields]:
    no other top-level key is spelled [Fields], [FIELDS] and the like. *)
Definition plain_fields (record : dict) : bool :=
  forallb (fun e => (fst e =? "fields") || negb (produces e "fields")) record.




(** ** Sample data *)

(** A decoder for the two documents the samples use. *)
Definition json_loads_sample (s : string) : option pyval :=
  if s =? "[]" then Some (PList [])
  else if s =? "{}" then Some (PDict [])
  else None.

Definition wire (type : string) (value : pyval) : pyval :=
  PDict [("type", PStr type); ("value", value)].

Definition sample_activity : pyval :=
  PDict [("timestamp", PInt 1700000000000); ("userRecordName", PStr "_user");
         ("deviceID", PStr "device-1")].

Definition sample_zone_id : pyval :=
  PDict [("zoneName", PStr "Reminders"); ("zoneType", PStr "REGULAR_CUSTOM_ZONE");
         ("ownerRecordName", PStr "_owner")].

(** A list record; [top] and [fields] are added to it. *)
Definition sample_record (record_name list_name : string) (top fields : dict)
  : dict :=
  [("recordName", PStr record_name);
   ("recordType", PStr "List");
   ("fields", PDict (("Name", wire "STRING" (PStr list_name)) :: fields));
   ("created", sample_activity);
   ("modified", sample_activity);
   ("deleted", PBool false);
   ("stableUrl", PStr "https://www.icloud.com/reminders/0abc");
   ("shortGUID", PStr "0abc");
   ("zoneID", sample_zone_id)] ++ top.

Definition sample_standard : dict := sample_record "L1" "Groceries" [] [].

Definition sample_shared : dict :=
  sample_record "L1" "Groceries" [("share", PDict [("x", PInt 1)])] [].

Definition sample_enhanced : dict :=
  sample_record "L1" "Groceries" []
    [("ShouldCategorizeGroceryItems", wire "INT64" (PInt 1))].

(** The record of [sample_standard] without its [zoneID]. *)
Definition sample_no_zone : dict :=
  [("recordName", PStr "L1");
   ("recordType", PStr "List");
   ("fields", PDict [("Name", wire "STRING" (PStr "Groceries"))]);
   ("created", sample_activity);
   ("modified", sample_activity);
   ("deleted", PBool false)].

Definition sample_sorted : dict :=
  [("recordName", PStr "L1");
   ("recordType", PStr "List");
   ("fields", PDict [("SortingStyle", wire "STRING" (PStr "title_asc"))])].

Definition sample_zone : ZoneObject :=
  {| zone_id := {| zone_name := PStr "Reminders";
                   zone_type := PStr "REGULAR_CUSTOM_ZONE";
                   owner_record_name := PStr "_owner" |};
     atomic := PBool true;
     is_eligible_for_hierarchical_share := PBool false;
     is_eligible_for_zone_share := PBool true;
     sync_token := PNone |}.

Definition sample_other_zone : pyval :=
  PDict [("atomic", PBool true);
         ("isEligibleForHierarchicalShare", PBool false);
         ("isEligibleForZoneShare", PBool true);
         ("zoneID",
          PDict [("zoneName", PStr "Notes");
                 ("zoneType", PStr "REGULAR_CUSTOM_ZONE");
                 ("ownerRecordName", PStr "_owner")])].

Definition sample_zones_world : world :=
  session [PDict [("zones", PList [sample_other_zone])]] [] [].

Definition sample_zones : list ZoneObject :=
  Eval vm_compute in
    match fst (_fetch_zones sample_zones_world) with
    | Ok zones => zones
    | Raise _ => []
    end.

Definition sample_zones_world' : world :=
  Eval vm_compute in snd (_fetch_zones sample_zones_world).

(** Three pages whose markers are absent, a token and null. *)
Definition page_absent : page :=
  {| batch := [PStr "r1"]; marker := None |}.
Definition page_token : page :=
  {| batch := [PStr "r2"]; marker := Some (PStr "tok1") |}.
Definition page_null : page :=
  {| batch := [PStr "r3"]; marker := Some PNone |}.

(** Two lists named alike and a third, fetched in one page. *)
Definition sample_lists_world : world :=
  session
    [response_of
       {| batch := [PDict (sample_record "L1" "Groceries" [] []);
                    PDict (sample_record "L2" "Groceries" [] []);
                    PDict (sample_record "L3" "Work" [] [])];
          marker := Some PNone |}]
    [] [].

Definition sample_lists : lists_dict :=
  Eval vm_compute in
    match fst (_fetch_lists json_loads_sample sample_zone sample_lists_world) with
    | Ok lists => lists
    | Raise _ => []
    end.

Definition sample_lists_world' : world :=
  Eval vm_compute in
    snd (_fetch_lists json_loads_sample sample_zone sample_lists_world).

Definition sample_service : RemindersService :=
  {| all_zones := [sample_zone]; zone := sample_zone; _lists := sample_lists |}.

Definition sample_world (l : list diag) : world := session [] [] l.

(** What the samples are unmarshalled and built to. *)
Definition built (record : dict) : RemindersList :=
  match fst (from_record json_loads_sample (PDict record) (sample_world [])) with
  | Ok l => l
  | Raise _ => {| variant := Standard; attrs := [] |}
  end.

Definition sample_standard_list : RemindersList :=
  Eval vm_compute in built sample_standard.
Definition sample_shared_list : RemindersList :=
  Eval vm_compute in built sample_shared.
Definition sample_enhanced_list : RemindersList :=
  Eval vm_compute in built sample_enhanced.

Definition sample_log : list diag :=
  Eval vm_compute in
    log (snd (from_record json_loads_sample (PDict sample_standard)
                (sample_world []))).

Definition sample_no_zone_data : dict :=
  Eval vm_compute in
    match fst (unmarshall json_loads_sample sample_no_zone (sample_world [])) with
    | Ok data => data
    | Raise _ => []
    end.

(** ** Export and the remaining accessors *)

Section Serialisation.

(** [str(v)] and [json.dumps(v, indent=2, ensure_ascii=False)]. *)
Variable py_str : pyval -> string.
Variable json_dumps : pyval -> result string.

(** [self.k] for an attribute that [__init__] sets from the keyword argument
    of the same name, [None] by default. *)
Definition attribute (self : RemindersList) (k : string) : pyval :=
  dict_get_default (attrs self) k PNone.

(** [v.value]: of the values of the service only an enumeration member has
    this attribute. *)
Definition value_of (v : pyval) : result pyval :=
  match v with
  | PEnum e => Ok (PStr (enum_value e))
  | _ => Raise AttributeError
  end.

(** [str(v) if v else None]. *)
Definition str_or_none (v : pyval) : pyval :=
  if truthy v then PStr (py_str v) else PNone.

Definition BaseRemindersList_to_dict (self : RemindersList) : result dict :=
  match value_of (attribute self "sorting_style") with
  | Raise e => Raise e
  | Ok sorting_style =>
      Ok [("list_id", list_id self);
          ("name", name self);
          ("deleted", attribute self "deleted");
          ("imported", attribute self "imported");
          ("is_group", attribute self "is_group");
          ("is_linked_to_account", attribute self "is_linked_to_account");
          ("reminder_ids", attribute self "reminder_ids");
          ("resolution_token_map", attribute self "resolution_token_map");
          ("sorting_style", sorting_style);
          ("plugin_fields", attribute self "plugin_fields");
          ("record_change_tag", attribute self "record_change_tag");
          ("created_date", PStr (py_str (attribute self "created_date")));
          ("created_by_user", attribute self "created_by_user");
          ("created_by_device", attribute self "created_by_device");
          ("modified_date", PStr (py_str (attribute self "modified_date")));
          ("modified_by_user", attribute self "modified_by_user");
          ("modified_by_device", attribute self "modified_by_device");
          ("deleted_date", str_or_none (attribute self "deleted_date"));
          ("deleted_by_user", attribute self "deleted_by_user");
          ("deleted_by_device", attribute self "deleted_by_device")]
  end.

(** [StandardRemindersList.to_dict].  The parent list of a list that the
    service built is an unmarshalled value: when it is truthy, calling its
    [to_dict] raises. *)
Definition StandardRemindersList_to_dict (self : RemindersList)
  : result dict :=
  match BaseRemindersList_to_dict self with
  | Raise e => Raise e
  | Ok this_dict =>
      let this_dict :=
        dict_set "expiration_date"
          (str_or_none (attribute self "expiration_date")) this_dict in
      if truthy (attribute self "parent_list") then Raise AttributeError
      else Ok (dict_set "parent_list" PNone this_dict)
  end.

Definition SharedRemindersList_to_dict (self : RemindersList) : result dict :=
  match StandardRemindersList_to_dict self with
  | Raise e => Raise e
  | Ok this_dict =>
      let this_dict := dict_set "share" (attribute self "share") this_dict in
      let this_dict :=
        dict_set "stable_url" (attribute self "stable_url") this_dict in
      Ok (dict_set "short_guid" (attribute self "short_guid") this_dict)
  end.

(** [EnhancedRemindersList.to_dict]: [__init__] sets the attribute only
    from a truthy argument, [True] when the argument is not given. *)
Definition EnhancedRemindersList_to_dict (self : RemindersList)
  : result dict :=
  match StandardRemindersList_to_dict self with
  | Raise e => Raise e
  | Ok this_dict =>
      let should_categorize_grocery_items :=
        dict_get_default (attrs self) "should_categorize_grocery_items"
          (PBool true) in
      if truthy should_categorize_grocery_items
      then Ok (dict_set "should_categorize_grocery_items"
                 should_categorize_grocery_items this_dict)
      else Raise AttributeError
  end.

(** [self.to_dict()], by the class of [self]. *)
Definition to_dict (self : RemindersList) : result dict :=
  match variant self with
  | Standard => StandardRemindersList_to_dict self
  | Shared => SharedRemindersList_to_dict self
  | Enhanced => EnhancedRemindersList_to_dict self
  end.

Definition to_json (self : RemindersList) : result string :=
  match to_dict self with
  | Raise e => Raise e
  | Ok d => json_dumps (PDict d)
  end.

End Serialisation.

(** The cache [_reminders] of a list: [None] until the first fetch. *)
Definition reminders_cache : Type := option (list (key * pyval)).

(** The [reminders] property; the cache is returned with the mapping. *)
Definition BaseRemindersList_reminders (self : RemindersList)
    (zone : ZoneObject) (_reminders : reminders_cache)
  : M (list (key * pyval) * reminders_cache) :=
  match _reminders with
  | None =>
      fetched <- _fetch_reminders self zone ;;
      ret (fetched, Some fetched)
  | Some cached => ret (cached, Some cached)
  end.

Definition BaseRemindersList_refresh (self : RemindersList)
    (zone : ZoneObject) : M reminders_cache :=
  fetched <- _fetch_reminders self zone ;;
  ret (Some fetched).

(** ** Further vocabulary *)

(** A JSON document, as [request.json()] returns it. *)
Fixpoint is_json (v : pyval) : bool :=
  match v with
  | PNone | PBool _ | PInt _ | PStr _ => true
  | PList l =>
      (fix all (l : list pyval) : bool :=
         match l with
         | [] => true
         | x :: l' => is_json x && all l'
         end) l
  | PDict d =>
      (fix all (d : list (string * pyval)) : bool :=
         match d with
         | [] => true
         | (_, x) :: d' => is_json x && all d'
         end) d
  | PTuple _ | PDatetime _ | PEnum _ => false
  end.

Definition is_enum (v : pyval) : bool :=
  match v with PEnum _ => true | _ => false end.

(** No entry [sorting_style] holds an enumeration member. *)
Definition no_bare_style (d : dict) : bool :=
  forallb (fun kv => negb ((fst kv =? "sorting_style") && is_enum (snd kv))) d.

(** The records an answer carries; none when it is malformed. *)
Definition records_of (response : pyval) : list pyval :=
  match getitem response "records" with
  | Ok records =>
      match iterate records with
      | Ok l => l
      | Raise _ => []
      end
  | Raise _ => []
  end.

(** A posted query that stems from [query]: it may go on and differs from
    [query] in its marker at most. *)
Definition stems_from (query : dict) (posted : pyval) : Prop :=
  exists q,
    posted = PDict q
    /\ more_pages q = true
    /\ forall k, (k =? "continuationMarker") = false ->
                 dict_get k q = dict_get k query.

Definition named (zone : string) (record : ZoneObject) : bool :=
  eq_str (zone_name (zone_id record)) zone.

(** The attributes as [from_record] has them before it moves the fields
    next to them. *)
Definition prepared (data : dict) (record_id list_name : pyval) (F : dict)
  : dict :=
  dict_remove "record_type"
    (dict_set "list_name" list_name
       (dict_set "fields" (PDict (dict_remove "name" F))
          (dict_set "list_id" record_id (dict_remove "record_id" data)))).

(** The parameters some constructor of a list accepts. *)
Definition PARAMETERS : list string :=
  BASE_REQUIRED ++ BASE_OPTIONAL ++ ["should_auto_categorize_items"].

(** A computation that leaves the session alone and only adds to the
    log. *)
Definition quiet {A} (m : M A) : Prop :=
  forall w,
    responses (snd (m w)) = responses w
    /\ requests (snd (m w)) = requests w
    /\ exists l, log (snd (m w)) = log w ++ l.

Definition keys_within (L : list string) (d : dict) : bool :=
  forallb (fun kv => in_list (fst kv) L) d.


(** Neither the attributes [d] nor the fields among them hold a bare
    sorting style. *)
Definition no_bare_attrs (d : dict) : Prop :=
  no_bare_style d = true
  /\ forall F, dict_get "fields" d = Some (PDict F) -> no_bare_style F = true.

(** ** Further samples *)

Definition sample_primary_zone : pyval :=
  PDict [("atomic", PBool true);
         ("isEligibleForHierarchicalShare", PBool false);
         ("isEligibleForZoneShare", PBool true);
         ("zoneID", sample_zone_id)].

(** The answers to a start: the zones, then one page of lists. *)
Definition sample_start_world : world :=
  session
    [PDict [("zones", PList [sample_other_zone; sample_primary_zone])];
     response_of
       {| batch := [PDict (sample_record "L1" "Groceries" [] []);
                    PDict (sample_record "L3" "Work" [] [])];
          marker := Some PNone |}]
    [] [].

Definition sample_started : RemindersService :=
  Eval vm_compute in
    match fst (RemindersService_init json_loads_sample sample_start_world) with
    | Ok service => service
    | Raise _ => sample_service
    end.

Definition sample_start_world' : world :=
  Eval vm_compute in
    snd (RemindersService_init json_loads_sample sample_start_world).




Definition sample_empty_service : RemindersService :=
  {| all_zones := [sample_zone]; zone := sample_zone; _lists := [] |}.

Definition sample_str (v : pyval) : string := "".

Definition sample_dumps (v : pyval) : result string := Ok "".

(** * Properties *)

(** ** Dictionaries *)

Lemma dict_mem_cons (a k : string) (v : pyval) (d : dict) :
  dict_mem a ((k, v) :: d) = (a =? k) || dict_mem a d.
Proof. unfold dict_mem. simpl. now destruct (a =? k). Qed.

Lemma dict_mem_keys (a : string) (d : dict) :
  dict_mem a d = existsb (fun e => a =? fst e) d.
Proof.
  unfold dict_mem. induction d as [|[k v] d IH]; simpl; [reflexivity|].
  destruct (a =? k); [reflexivity|exact IH].
Qed.

Lemma dict_mem_set (k k' : string) (v : pyval) (d : dict) :
  dict_mem k (dict_set k' v d) = (k =? k') || dict_mem k d.
Proof.
  unfold dict_mem.
  induction d as [|[k0 v0] d IH]; simpl.
  - destruct (k =? k'); reflexivity.
  - destruct (k' =? k0) eqn:E0; simpl.
    + apply String.eqb_eq in E0. subst k0.
      destruct (k =? k'); reflexivity.
    + destruct (k =? k0) eqn:E1; simpl.
      * now rewrite orb_true_r.
      * exact IH.
Qed.

Lemma dict_get_set_same (k : string) (v : pyval) (d : dict) :
  dict_get k (dict_set k v d) = Some v.
Proof.
  induction d as [|[k0 v0] d IH]; simpl.
  - now rewrite String.eqb_refl.
  - destruct (k =? k0) eqn:E; simpl.
    + now rewrite String.eqb_refl.
    + now rewrite E.
Qed.

Lemma dict_get_set_other (k k' : string) (v : pyval) (d : dict) :
  (k =? k') = false -> dict_get k (dict_set k' v d) = dict_get k d.
Proof.
  intros Hk. induction d as [|[k0 v0] d IH]; simpl.
  - now rewrite Hk.
  - destruct (k' =? k0) eqn:E0; simpl.
    + apply String.eqb_eq in E0. subst k0. now rewrite Hk.
    + now rewrite IH.
Qed.

Lemma dict_set_set (k : string) (v v' : pyval) (d : dict) :
  dict_set k v' (dict_set k v d) = dict_set k v' d.
Proof.
  induction d as [|[k0 v0] d IH]; simpl.
  - now rewrite String.eqb_refl.
  - destruct (k =? k0) eqn:E; simpl.
    + now rewrite String.eqb_refl.
    + now rewrite E, IH.
Qed.

Lemma dict_get_remove_other (k k' : string) (d : dict) :
  (k =? k') = false -> dict_get k (dict_remove k' d) = dict_get k d.
Proof.
  intros Hk. induction d as [|[k0 v0] d IH]; simpl; [reflexivity|].
  destruct (k' =? k0) eqn:E0; simpl.
  - apply String.eqb_eq in E0. subst k0. now rewrite Hk.
  - now rewrite IH.
Qed.

Lemma dict_mem_remove_other (k k' : string) (d : dict) :
  (k =? k') = false -> dict_mem k (dict_remove k' d) = dict_mem k d.
Proof. intros Hk. unfold dict_mem. now rewrite dict_get_remove_other. Qed.

Lemma dict_del_ok (d d' : dict) (k : string) :
  dict_del d k = Ok d' -> d' = dict_remove k d.
Proof. unfold dict_del. destruct (dict_mem k d); congruence. Qed.

Lemma find_snoc {A} (f : A -> bool) (l : list A) (a : A) :
  find f (l ++ [a])
  = match find f l with
    | Some b => Some b
    | None => if f a then Some a else None
    end.
Proof.
  induction l as [|b l IH]; simpl; [reflexivity|].
  destruct (f b); [reflexivity|exact IH].
Qed.

(** ** Effects *)

Lemma bind_ok {A B} (m : M A) (k : A -> M B) (w w' : world) (b : B) :
  bind m k w = (Ok b, w') ->
  exists a w1, m w = (Ok a, w1) /\ k a w1 = (Ok b, w').
Proof.
  unfold bind. destruct (m w) as [[a|e] w1]; [|discriminate].
  intros H. now exists a, w1.
Qed.

Lemma lift_ok {A} (r : result A) (w w' : world) (a : A) :
  lift r w = (Ok a, w') -> r = Ok a /\ w' = w.
Proof. unfold lift. intros H. now injection H as -> ->. Qed.

Lemma ret_ok {A} (x a : A) (w w' : world) :
  ret x w = (Ok a, w') -> a = x /\ w' = w.
Proof. unfold ret. intros H. now injection H as -> ->. Qed.

Lemma emit_then_ok {A} (d : diag) (m : M A) (w w' : world) (a : A) :
  (emit d ;;; m) w = (Ok a, w') -> exists w1, m w1 = (Ok a, w').
Proof. intros H. apply bind_ok in H as (_ & w1 & _ & H). now exists w1. Qed.

Lemma reraising_ok {A} (m : M A) (h : M unit) (w w' : world) (a : A) :
  reraising m h w = (Ok a, w') -> m w = (Ok a, w').
Proof.
  unfold reraising. destruct (m w) as [[x|e] w1]; [trivial|].
  destruct (h w1) as [[u|e'] w2]; discriminate.
Qed.

Lemma bind_lift {A B} (r : result A) (k : A -> M B) (w : world) :
  bind (lift r) k w
  = match r with
    | Ok a => k a w
    | Raise e => (Raise e, w)
    end.
Proof. unfold bind, lift. now destruct r. Qed.

Lemma bind_eq {A B} (m : M A) (k : A -> M B) (w w1 : world) (a : A) :
  m w = (Ok a, w1) -> bind m k w = k a w1.
Proof. unfold bind. now intros ->. Qed.


(** ** Canonical names *)













Example to_snake_case_ids :
  to_snake_case "SortingStyleIDs" = "sorting_style_ids".
Proof. reflexivity. Qed.

Example to_snake_case_zone : to_snake_case "zoneID" = "zone_id".
Proof. reflexivity. Qed.


(** ** Activity envelopes *)

(** C4.  The envelope [False] is parsed to an activity whose timestamp, user
    and device are all absent; the envelope [{"timestamp": 1700000000000}]
    to one with an instant and no user or device; the envelope [True]
    raises. *)
Theorem unmarshall_activity_envelopes :
  unmarshall_activity (PBool false)
  = Ok [("timestamp", PNone); ("user_id", PNone); ("device_id", PNone)]
  /\ (exists t,
        unmarshall_activity (PDict [("timestamp", PInt 1700000000000)])
        = Ok [("timestamp", PDatetime t); ("user_id", PNone);
              ("device_id", PNone)])
  /\ unmarshall_activity (PBool true) = Raise AssertionError.
Proof.
  split; [reflexivity|split; [|reflexivity]].
  exists (FromMillis 1700000000000). reflexivity.
Qed.

(** C5, as stated, fails on the empty mapping: it has no [timestamp] and is
    parsed, to the activity that never occurred. *)
Lemma unmarshall_activity_empty_mapping :
  dict_mem "timestamp" [] = false
  /\ unmarshall_activity (PDict []) = Ok no_activity
  /\ ~ (exists e, unmarshall_activity (PDict []) = Raise e).
Proof.
  split; [reflexivity|split; [reflexivity|]].
  intros [e He]. discriminate He.
Qed.

(** C5, amended.  A mapping without [timestamp] that is not empty raises
    [ValueError]; the empty mapping is falsy, as [False] is, and gives the
    activity with nothing in it. *)
Theorem unmarshall_activity_missing_timestamp (d : dict) :
  dict_mem "timestamp" d = false ->
  unmarshall_activity (PDict d)
  = match d with
    | [] => Ok no_activity
    | _ => Raise (ValueError "Invalid activity data (missing 'timestamp')")
    end.
Proof.
  intros H. destruct d as [|kv d]; [reflexivity|].
  unfold dict_mem in H. unfold unmarshall_activity.
  cbn [truthy negb].
  destruct (dict_get "timestamp" (kv :: d)); [discriminate|reflexivity].
Qed.

(** ** Pagination *)

Lemma more_pages_set (m : pyval) (query : dict) :
  more_pages (dict_set "continuationMarker" m query) = negb (is_none m).
Proof.
  unfold more_pages, dict_get_default.
  rewrite dict_mem_set, dict_get_set_same. reflexivity.
Qed.

(** One turn of the loop: the marker of the answer, [None] when it has none,
    replaces the marker of the query. *)
Lemma query_loop_step (p : page) (pending : list pyval) (query : dict)
    (records sent : list pyval) :
  more_pages query = true ->
  query_loop (response_of p :: pending) query records sent
  = query_loop pending (dict_set "continuationMarker" (token p) query)
      (records ++ batch p) (sent ++ [PDict query]).
Proof.
  intros Hq. simpl. rewrite Hq.
  unfold response_of, token, dict_item, dict_get_default.
  destruct (marker p); reflexivity.
Qed.

Lemma query_loop_stop (pending : list pyval) (query : dict)
    (records sent : list pyval) :
  more_pages query = false ->
  query_loop pending query records sent = (Ok records, pending, sent).
Proof. intros Hq. destruct pending; simpl; now rewrite Hq. Qed.

Lemma query_loop_run (front : list page) :
  forall (last : page) (rest : list pyval) (query : dict)
         (records sent : list pyval),
    more_pages query = true ->
    forallb announces_more front = true ->
    announces_more last = false ->
    query_loop (map response_of front ++ response_of last :: rest)
      query records sent
    = (Ok (records ++ concat (map batch front) ++ batch last),
       rest,
       sent ++ queries query front).
Proof.
  unfold queries.
  induction front as [|p front IH]; intros last rest query records sent Hq Hf Hl.
  - simpl app. rewrite query_loop_step by exact Hq.
    rewrite query_loop_stop.
    + reflexivity.
    + rewrite more_pages_set. unfold announces_more, token in *.
      destruct (marker last) as [m|]; [|reflexivity].
      now rewrite negb_false_iff in *.
  - simpl in Hf. apply andb_prop in Hf as [Hp Hf].
    simpl map. simpl app. rewrite query_loop_step by exact Hq.
    rewrite (IH last rest); try assumption.
    + f_equal; [f_equal|].
      * simpl. now rewrite <- !app_assoc.
      * rewrite <- app_assoc. simpl. f_equal. f_equal. f_equal.
        apply map_ext. intros q. now rewrite dict_set_set.
    + rewrite more_pages_set. unfold announces_more, token in *.
      destruct (marker p); [assumption|discriminate].
Qed.

Lemma fetch_all_pages (front : list page) (last : page) (rest : list pyval)
    (query : dict) (sent : list pyval) (l : list diag) :
  dict_mem "continuationMarker" query = false ->
  forallb announces_more front = true ->
  announces_more last = false ->
  fetch_all query
    (session (map response_of front ++ response_of last :: rest) sent l)
  = (Ok (concat (map batch front) ++ batch last),
     session rest (sent ++ queries query front) l).
Proof.
  intros Hq Hf Hl. unfold fetch_all, session. simpl.
  rewrite (query_loop_run front last rest); try assumption.
  - reflexivity.
  - unfold more_pages. now rewrite Hq.
Qed.

(** C1, as stated, fails: of three answers whose markers are absent, a token
    and null, the first stops the loop; one query is posted, one answer is
    read and its records alone are returned. *)
Lemma pagination_absent_marker_stops :
  fetch_all (lists_query sample_zone)
    (session [response_of page_absent; response_of page_token;
              response_of page_null] [] [])
  = (Ok [PStr "r1"],
     session [response_of page_token; response_of page_null]
       [PDict (lists_query sample_zone)] [])
  /\ ~ (List.length
          (requests
             (snd (fetch_all (lists_query sample_zone)
                     (session [response_of page_absent; response_of page_token;
                               response_of page_null] [] []))))
        = 3%nat
        /\ fst (fetch_all (lists_query sample_zone)
                  (session [response_of page_absent; response_of page_token;
                            response_of page_null] [] []))
           = Ok [PStr "r1"; PStr "r2"; PStr "r3"]).
Proof.
  split; [reflexivity|].
  intros [Hn _]. discriminate Hn.
Qed.

(** C1, amended.  The three states are those of the marker of the query: a
    query without marker, the first, is posted; then the marker of each
    answer, null when the answer has none, becomes the marker of the query,
    and the loop goes on exactly when it is not null.  So for answers of
    which all but the last carry a token and the last carries null or no
    marker, both fetchers post one query per answer, each after the first
    with the token of the answer before, read these answers and no further
    one, and [_fetch_lists] collects their records in the order of the
    answers. *)
Theorem pagination_protocol (front : list page) (last : page)
    (rest sent : list pyval) (l : list diag) (zone : ZoneObject)
    (self : RemindersList) :
  forallb announces_more front = true ->
  announces_more last = false ->
  let w := session (map response_of front ++ response_of last :: rest) sent l in
  fetch_all (lists_query zone) w
  = (Ok (concat (map batch front) ++ batch last),
     session rest (sent ++ queries (lists_query zone) front) l)
  /\ _fetch_reminders self zone w
     = (Ok [],
        session rest
          (sent ++ queries
                     (_get_fetch_reminders_payload self zone (Some false)
                        (Some true)) front) l)
  /\ List.length (queries (lists_query zone) front)
     = S (List.length front).
Proof.
  intros Hf Hl w. split; [|split].
  - apply fetch_all_pages; [reflexivity|assumption|assumption].
  - unfold _fetch_reminders, bind. subst w.
    rewrite fetch_all_pages; [reflexivity|reflexivity|assumption|assumption].
  - unfold queries. simpl. now rewrite length_map.
Qed.

Section Properties.

Variable json_loads : string -> option pyval.

(** ** Zones *)

(** C2.  The code does not do what the claim says: when the zones that were
    fetched hold none named [Reminders], the lookup in the container raises
    [KeyError] before the service can raise
    [PyiCloudServiceNotActivatedException]. *)
Theorem service_init_without_primary_zone (w w1 : world)
    (zones : list ZoneObject) :
  _fetch_zones w = (Ok zones, w1) ->
  forallb not_primary zones = true ->
  RemindersService_init json_loads w
  = (Raise (KeyError "Zone 'Reminders' not found."), w1).
Proof.
  intros Hfetch Hnone.
  unfold RemindersService_init, ZonesContainer_getitem, ZonesContainer_records.
  unfold bind. rewrite Hfetch.
  assert (Hfind : find (fun record =>
                          eq_str (zone_name (zone_id record)) PRIMARY_ZONE_NAME)
                    zones = None).
  { clear Hfetch. induction zones as [|z zones IH]; [reflexivity|].
    simpl in Hnone. apply andb_prop in Hnone as [Hz Hrest].
    unfold not_primary in Hz. apply negb_true_iff in Hz.
    simpl. rewrite Hz. now apply IH. }
  rewrite Hfind. reflexivity.
Qed.

(** ** Fields *)

(** C3.  The code does not do what the claim says: a field whose canonical
    name is [sorting_style] is stored as a tuple of one enumeration member,
    and the member is looked up under the canonical name in the wire map;
    when the wire map has no such key, as with the wire name [SortingStyle],
    it is [MANUAL] whatever the field's value. *)
Theorem sorting_style_unmarshalled (data fields fields' : dict)
    (record_id field_value : pyval) (wire_name : string) (w w' : world) :
  to_snake_case wire_name = "sorting_style" ->
  unmarshall_field json_loads data record_id fields (wire_name, field_value) w
  = (Ok fields', w') ->
  exists raw style,
    dict_get "fields" data = Some (PDict raw)
    /\ from_string (dict_get_default raw "sorting_style" (PStr "manual"))
       = Ok style
    /\ dict_get "sorting_style" fields' = Some (PTuple [PEnum style])
    /\ (dict_mem "sorting_style" raw = false -> style = MANUAL).
Proof.
  intros Hname H. unfold unmarshall_field in H. cbn [fst snd] in H.
  rewrite Hname in H.
  apply bind_ok in H as (v & w1 & _ & H).
  unfold post_process in H.
  change (in_list "sorting_style" JSON_FIELDS) with false in H.
  change (in_list "sorting_style" BOOLEAN_FIELDS) with false in H.
  change (in_list "sorting_style" ["sorting_style"]) with true in H.
  cbv iota in H.
  apply bind_ok in H as (raw_fields & w2 & H1 & H).
  apply bind_ok in H as (value & w3 & H2 & H).
  apply bind_ok in H as (style & w4 & H3 & H).
  apply lift_ok in H1 as [H1 ->]. apply lift_ok in H2 as [H2 ->].
  apply lift_ok in H3 as [H3 ->]. apply ret_ok in H as [-> ->].
  unfold dict_item in H1.
  destruct (dict_get "fields" data) as [fv|]; [|discriminate].
  injection H1 as ->.
  destruct raw_fields as [| | | | |raw| | |]; try discriminate.
  injection H2 as <-.
  exists raw, style. repeat split; try assumption.
  - apply dict_get_set_same.
  - intros Hno. unfold dict_mem in Hno. unfold dict_get_default in H3.
    destruct (dict_get "sorting_style" raw); [discriminate|].
    now injection H3 as <-.
Qed.


(** ** The lists container *)

Lemma key_of_str (x : string) (k : key) :
  key_eqb (KStr x) k = true -> k = KStr x.
Proof.
  destruct k; simpl; try discriminate.
  intros H. apply String.eqb_eq in H. now subst.
Qed.

Lemma key_is_str (x : string) (k : key) :
  key_eqb k (KStr x) = true -> k = KStr x.
Proof.
  destruct k; simpl; try discriminate.
  intros H. apply String.eqb_eq in H. now subst.
Qed.

Lemma key_eqb_str_refl (x : string) : key_eqb (KStr x) (KStr x) = true.
Proof. simpl. apply String.eqb_refl. Qed.

Lemma lists_get_set (x : string) (k : key) (v : RemindersList)
    (d : lists_dict) :
  lists_get (KStr x) (lists_set k v d)
  = if key_eqb (KStr x) k then Some v else lists_get (KStr x) d.
Proof.
  induction d as [|[k' v'] d IH]; [reflexivity|].
  cbn [lists_set].
  destruct (key_eqb k k') eqn:Ekk'; cbn [lists_get].
  - destruct (key_eqb (KStr x) k) eqn:Exk.
    + apply key_of_str in Exk. subst k.
      apply key_of_str in Ekk'. subst k'.
      now rewrite key_eqb_str_refl.
    + destruct (key_eqb (KStr x) k') eqn:Exk'; [|reflexivity].
      apply key_of_str in Exk'. subst k'.
      apply key_is_str in Ekk'. subst k.
      now rewrite key_eqb_str_refl in Exk.
  - rewrite IH. destruct (key_eqb (KStr x) k') eqn:Exk'; [|reflexivity].
    destruct (key_eqb (KStr x) k) eqn:Exk; [|reflexivity].
    apply key_of_str in Exk'. apply key_of_str in Exk. subst.
    now rewrite key_eqb_str_refl in Ekk'.
Qed.

(** The key a name hashes to is the [str] [x] exactly when the name equals
    [x]. *)
Lemma hash_key_str (v : pyval) (k : key) (x : string) :
  hash_key v = Some k -> key_eqb (KStr x) k = eq_str v x.
Proof.
  destruct v as [| | | | | | |[]|]; simpl; intros H; try discriminate;
    try (injection H as <-; simpl; try reflexivity; apply String.eqb_sym).
  destruct (_ l); [|discriminate]. injection H as <-. reflexivity.
Qed.

Lemma store_lists_get (objs : list RemindersList) :
  forall (acc lists : lists_dict) (w w' : world) (x : string),
    for_each store_list objs acc w = (Ok lists, w') ->
    lists_get (KStr x) lists
    = match last_named x objs with
      | Some o => Some o
      | None => lists_get (KStr x) acc
      end.
Proof.
  induction objs as [|o objs IH]; intros acc lists w w' x H.
  - apply ret_ok in H as [-> _]. reflexivity.
  - cbn [for_each] in H. apply bind_ok in H as (acc1 & w1 & Hs & H).
    unfold store_list in Hs.
    destruct (hash_key (name o)) as [k|] eqn:Ek; [|discriminate].
    apply ret_ok in Hs as [-> ->].
    rewrite (IH _ _ _ _ x H).
    unfold last_named. cbn [rev]. rewrite find_snoc.
    destruct (find _ (rev objs)); [reflexivity|].
    rewrite lists_get_set, (hash_key_str _ _ x Ek).
    now destruct (eq_str (name o) x).
Qed.

Lemma store_lists_world (objs : list RemindersList) :
  forall (acc lists : lists_dict) (w w' : world),
    for_each store_list objs acc w = (Ok lists, w') -> w' = w.
Proof.
  induction objs as [|o objs IH]; intros acc lists w w' H.
  - now apply ret_ok in H as [_ ->].
  - cbn [for_each] in H. apply bind_ok in H as (acc1 & w1 & Hs & H).
    unfold store_list in Hs. destruct (hash_key (name o)); [|discriminate].
    apply ret_ok in Hs as [-> ->]. now apply IH in H.
Qed.

(** C9.  The container keys the lists by their name, not by [list_id]: after
    a fetch, the entry under a [str] [x] is the last list, in the order of
    the fetch, whose name is [x]; lists named alike share one entry; and
    [get_by_id x] returns that list, or raises [KeyError] when no list is
    named [x]. *)
Theorem lists_keyed_by_name (zone : ZoneObject) (w w' : world)
    (lists : lists_dict) :
  _fetch_lists json_loads zone w = (Ok lists, w') ->
  exists (records : list pyval) (objs : list RemindersList) (w1 : world),
    fetch_all (lists_query zone) w = (Ok records, w1)
    /\ comprehension (from_record json_loads) records w1 = (Ok objs, w')
    /\ (forall x, lists_get (KStr x) lists = last_named x objs)
    /\ (forall service x wx,
          _lists service = lists -> lists <> [] ->
          get_by_id json_loads service x wx
          = match last_named x objs with
            | Some l => (Ok (l, service), wx)
            | None => (Raise (KeyError x), wx)
            end).
Proof.
  intros H. unfold _fetch_lists in H.
  apply bind_ok in H as (records & w1 & Hfetch & H).
  apply bind_ok in H as (objs & w2 & Hobjs & H).
  assert (Hw := store_lists_world _ _ _ _ _ H). subst w2.
  assert (Hget : forall x, lists_get (KStr x) lists = last_named x objs).
  { intros x. rewrite (store_lists_get _ _ _ _ _ x H).
    now destruct (last_named x objs). }
  exists records, objs, w1. repeat split; try assumption.
  intros service x wx Hs Hne.
  unfold get_by_id, ListsContainer_records, bind. rewrite Hs.
  destruct lists as [|kv lists']; [contradiction|].
  unfold ret. rewrite Hget.
  destruct (last_named x objs); [|reflexivity].
  f_equal. f_equal. f_equal. destruct service. simpl in *. now subst.
Qed.

(** ** Materialisation *)

Lemma unmarshall_item_keys (data acc res : dict) (entry : string * pyval)
    (w w' : world) :
  unmarshall_item json_loads data acc entry w = (Ok res, w') ->
  forall a, dict_mem a res = dict_mem a acc || produces entry a.
Proof.
  intros H a. unfold unmarshall_item in H. unfold produces.
  cbv zeta in H.
  destruct (fst entry =? "recordName").
  { apply ret_ok in H as [-> _]. rewrite dict_mem_set. apply orb_comm. }
  destruct (in_list (fst entry) ["created"; "deleted"; "modified"]).
  { apply bind_ok in H as (parsed & w1 & _ & H).
    apply bind_ok in H as (t & w2 & _ & H).
    apply bind_ok in H as (u & w3 & _ & H).
    apply bind_ok in H as (d & w4 & _ & H).
    apply ret_ok in H as [-> _]. rewrite !dict_mem_set.
    unfold in_list. cbn [existsb].
    destruct (a =? _), (a =? _), (a =? _), (dict_mem a acc); reflexivity. }
  destruct (fst entry =? "expirationTime").
  { apply bind_ok in H as (t & w1 & _ & H).
    apply ret_ok in H as [-> _]. rewrite dict_mem_set. apply orb_comm. }
  destruct (fst entry =? "fields").
  { apply bind_ok in H as (entries & w1 & _ & H).
    apply bind_ok in H as (fields & w2 & _ & H).
    apply bind_ok in H as (fields' & w3 & _ & H).
    apply ret_ok in H as [-> _]. rewrite dict_mem_set. apply orb_comm. }
  destruct (fst entry =? "share").
  { apply ret_ok in H as [-> _]. rewrite dict_mem_set. apply orb_comm. }
  destruct (is_primitive (snd entry)).
  { apply ret_ok in H as [-> _]. rewrite dict_mem_set. apply orb_comm. }
  apply emit_then_ok in H as (w1 & H).
  apply ret_ok in H as [-> _]. rewrite dict_mem_set. apply orb_comm.
Qed.

(** The keys of an unmarshalled record are the attributes its entries
    produce. *)
Lemma unmarshall_keys (data : dict) (entries : list (string * pyval)) :
  forall (acc res : dict) (w w' : world),
    for_each (unmarshall_item json_loads data) entries acc w = (Ok res, w') ->
    forall a,
      dict_mem a res = dict_mem a acc || existsb (fun e => produces e a) entries.
Proof.
  induction entries as [|e entries IH]; intros acc res w w' H a.
  - apply ret_ok in H as [-> _]. now rewrite orb_false_r.
  - cbn [for_each] in H. apply bind_ok in H as (acc1 & w1 & He & H).
    rewrite (IH _ _ _ _ H a), (unmarshall_item_keys _ _ _ _ _ _ He a).
    cbn [existsb]. now rewrite orb_assoc.
Qed.

Lemma unmarshall_item_get_other (data acc res : dict)
    (entry : string * pyval) (w w' : world) (a : string) :
  unmarshall_item json_loads data acc entry w = (Ok res, w') ->
  produces entry a = false ->
  dict_get a res = dict_get a acc.
Proof.
  intros H Ha. unfold unmarshall_item in H. unfold produces in Ha.
  cbv zeta in H.
  destruct (fst entry =? "recordName").
  { apply ret_ok in H as [-> _]. now apply dict_get_set_other. }
  destruct (in_list (fst entry) ["created"; "deleted"; "modified"]).
  { apply bind_ok in H as (parsed & w1 & _ & H).
    apply bind_ok in H as (t & w2 & _ & H).
    apply bind_ok in H as (u & w3 & _ & H).
    apply bind_ok in H as (d & w4 & _ & H).
    apply ret_ok in H as [-> _].
    unfold in_list in Ha. cbn [existsb] in Ha.
    apply orb_false_elim in Ha as [H1 Ha].
    apply orb_false_elim in Ha as [H2 Ha].
    apply orb_false_elim in Ha as [H3 _].
    now rewrite !dict_get_set_other. }
  destruct (fst entry =? "expirationTime").
  { apply bind_ok in H as (t & w1 & _ & H).
    apply ret_ok in H as [-> _]. now apply dict_get_set_other. }
  destruct (fst entry =? "fields").
  { apply bind_ok in H as (entries & w1 & _ & H).
    apply bind_ok in H as (fields & w2 & _ & H).
    apply bind_ok in H as (fields' & w3 & _ & H).
    apply ret_ok in H as [-> _]. now apply dict_get_set_other. }
  destruct (fst entry =? "share").
  { apply ret_ok in H as [-> _]. now apply dict_get_set_other. }
  destruct (is_primitive (snd entry)).
  { apply ret_ok in H as [-> _]. now apply dict_get_set_other. }
  apply emit_then_ok in H as (w1 & H).
  apply ret_ok in H as [-> _]. now apply dict_get_set_other.
Qed.

Lemma unmarshall_get_other (data : dict) (entries : list (string * pyval))
    (a : string) :
  forall (acc res : dict) (w w' : world),
    for_each (unmarshall_item json_loads data) entries acc w = (Ok res, w') ->
    existsb (fun e => produces e a) entries = false ->
    dict_get a res = dict_get a acc.
Proof.
  induction entries as [|e entries IH]; intros acc res w w' H Ha.
  - now apply ret_ok in H as [-> _].
  - cbn [for_each] in H. apply bind_ok in H as (acc1 & w1 & He & H).
    cbn [existsb] in Ha. apply orb_false_elim in Ha as [Ha1 Ha2].
    rewrite (IH _ _ _ _ H Ha2).
    exact (unmarshall_item_get_other _ _ _ _ _ _ _ He Ha1).
Qed.





Lemma no_key_no_fields (entries : dict) :
  dict_mem "fields" entries = false ->
  plain_fields entries = true ->
  existsb (fun e => produces e "fields") entries = false.
Proof.
  unfold plain_fields. rewrite dict_mem_keys.
  induction entries as [|e entries IH]; [reflexivity|].
  cbn [existsb forallb]. intros Hk Hp.
  apply orb_false_elim in Hk as [Hk1 Hk2].
  apply andb_prop in Hp as [Hp1 Hp2].
  rewrite (IH Hk2 Hp2), orb_false_r.
  rewrite String.eqb_sym, Hk1 in Hp1. now apply negb_true_iff in Hp1.
Qed.


Lemma merge_fields_cons (k : string) (v : pyval) (entries data : dict)
    (w : world) :
  for_each merge_field ((k, v) :: entries) data w
  = if dict_mem k data && negb (in_list k ["name"])
    then (Raise (KeyError ("Field '" ++ k ++ "' already exists in data")%string),
          w)
    else for_each merge_field entries (dict_set k v data) w.
Proof.
  cbn [for_each]. unfold bind, merge_field. cbn [fst snd].
  now destruct (dict_mem k data && negb (in_list k ["name"])).
Qed.

Lemma merge_fields_ok (entries : dict) :
  forall (data final : dict) (w w' : world),
    for_each merge_field entries data w = (Ok final, w') ->
    w' = w
    /\ forall a, dict_mem a final = dict_mem a data || dict_mem a entries.
Proof.
  induction entries as [|[k v] entries IH]; intros data final w w' H.
  - apply ret_ok in H as [-> ->]. split; [reflexivity|].
    intros a. now rewrite orb_false_r.
  - rewrite merge_fields_cons in H.
    destruct (dict_mem k data && negb (in_list k ["name"])); [discriminate|].
    apply IH in H as [-> Hkeys]. split; [reflexivity|].
    intros a. rewrite Hkeys, dict_mem_set, dict_mem_cons.
    destruct (a =? k), (dict_mem a data); reflexivity.
Qed.




Lemma from_data_ok (cls : ListVariant) (data : dict) (w w' : world)
    (l : RemindersList) :
  from_data cls data w = (Ok l, w') -> l = {| variant := cls; attrs := data |}.
Proof.
  unfold from_data.
  destruct (dict_mem "service" data || dict_mem "self" data); [discriminate|].
  intros H. apply bind_ok in H as (u & w1 & _ & H).
  now apply ret_ok in H as [-> _].
Qed.



End Properties.

(** * The properties on the samples *)

Lemma pagination_protocol_witness :
  forallb announces_more [page_token] = true
  /\ announces_more page_absent = false
  /\ fetch_all (lists_query sample_zone)
       (session [response_of page_token; response_of page_absent;
                 response_of page_null] [] [])
     = (Ok [PStr "r2"; PStr "r1"],
        session [response_of page_null]
          [PDict (lists_query sample_zone);
           PDict (dict_set "continuationMarker" (PStr "tok1")
                    (lists_query sample_zone))] []).
Proof.
  split; [reflexivity|split; [reflexivity|]].
  exact (proj1 (pagination_protocol [page_token] page_absent
                  [response_of page_null] [] [] sample_zone
                  sample_standard_list eq_refl eq_refl)).
Defined.

Lemma service_init_without_primary_zone_witness :
  _fetch_zones sample_zones_world = (Ok sample_zones, sample_zones_world')
  /\ forallb not_primary sample_zones = true
  /\ RemindersService_init json_loads_sample sample_zones_world
     = (Raise (KeyError "Zone 'Reminders' not found."), sample_zones_world').
Proof.
  split; [reflexivity|split; [reflexivity|]].
  apply (service_init_without_primary_zone json_loads_sample
           sample_zones_world sample_zones_world' sample_zones);
    reflexivity.
Defined.

Lemma sorting_style_unmarshalled_witness :
  to_snake_case "SortingStyle" = "sorting_style"
  /\ unmarshall_field json_loads_sample sample_sorted (PStr "L1") []
       ("SortingStyle", wire "STRING" (PStr "title_asc")) (sample_world [])
     = (Ok [("sorting_style", PTuple [PEnum MANUAL])], sample_world [])
  /\ exists raw style,
       dict_get "fields" sample_sorted = Some (PDict raw)
       /\ from_string (dict_get_default raw "sorting_style" (PStr "manual"))
          = Ok style
       /\ dict_get "sorting_style" [("sorting_style", PTuple [PEnum MANUAL])]
          = Some (PTuple [PEnum style])
       /\ (dict_mem "sorting_style" raw = false -> style = MANUAL).
Proof.
  split; [reflexivity|split; [reflexivity|]].
  apply (sorting_style_unmarshalled json_loads_sample sample_sorted []
           [("sorting_style", PTuple [PEnum MANUAL])] (PStr "L1")
           (wire "STRING" (PStr "title_asc")) "SortingStyle"
           (sample_world []) (sample_world []));
    reflexivity.
Defined.

Lemma unmarshall_activity_missing_timestamp_witness :
  dict_mem "timestamp" [("userRecordName", PStr "_user")] = false
  /\ unmarshall_activity (PDict [("userRecordName", PStr "_user")])
     = Raise (ValueError "Invalid activity data (missing 'timestamp')").
Proof.
  split; [reflexivity|].
  apply (unmarshall_activity_missing_timestamp
           [("userRecordName", PStr "_user")]).
  reflexivity.
Defined.



Lemma lists_keyed_by_name_witness :
  _fetch_lists json_loads_sample sample_zone sample_lists_world
  = (Ok sample_lists, sample_lists_world')
  /\ exists (records : list pyval) (objs : list RemindersList) (w1 : world),
       fetch_all (lists_query sample_zone) sample_lists_world
       = (Ok records, w1)
       /\ comprehension (from_record json_loads_sample) records w1
          = (Ok objs, sample_lists_world')
       /\ (forall x, lists_get (KStr x) sample_lists = last_named x objs)
       /\ (forall service x wx,
             _lists service = sample_lists -> sample_lists <> [] ->
             get_by_id json_loads_sample service x wx
             = match last_named x objs with
               | Some l => (Ok (l, service), wx)
               | None => (Raise (KeyError x), wx)
               end).
Proof.
  split; [reflexivity|].
  apply (lists_keyed_by_name json_loads_sample sample_zone sample_lists_world
           sample_lists_world' sample_lists).
  reflexivity.
Defined.

(** Of two lists named [Groceries] the later one, [L2], is kept; no entry is
    under an identifier. *)
Example get_by_id_goes_by_name :
  fst (get_by_id json_loads_sample sample_service "L2" (sample_world []))
  = Raise (KeyError "L2")
  /\ option_map list_id (lists_get (KStr "Groceries") sample_lists)
     = Some (PStr "L2")
  /\ List.length sample_lists = 2%nat.
Proof. repeat split. Qed.


(** * Further properties *)

(** ** The sorting styles *)

(** X1.  [from_string] undoes [value]: the wire string of a member is parsed
    to that member, a value that is parsed equals the wire string of its
    member, and a value that equals none of the five wire strings raises
    [ValueError]. *)
Theorem from_string_round_trip :
  (forall e, from_string (PStr (enum_value e)) = Ok e)
  /\ (forall v e, from_string v = Ok e -> eq_str v (enum_value e) = true)
  /\ (forall v, (forall e, eq_str v (enum_value e) = false) ->
                from_string v = Raise (ValueError "Unknown sorting style")).
Proof.
  split; [|split].
  - intros []; reflexivity.
  - intros v e. unfold from_string.
    destruct (eq_str v "manual") eqn:E1;
      [intros H; injection H as <-; exact E1|].
    destruct (eq_str v "displayDate_asc") eqn:E2;
      [intros H; injection H as <-; exact E2|].
    destruct (eq_str v "displayDate_desc") eqn:E3;
      [intros H; injection H as <-; exact E3|].
    destruct (eq_str v "title_asc") eqn:E4;
      [intros H; injection H as <-; exact E4|].
    destruct (eq_str v "title_desc") eqn:E5;
      [intros H; injection H as <-; exact E5|].
    discriminate.
  - intros v H. unfold from_string.
    rewrite (H MANUAL : eq_str v "manual" = false).
    rewrite (H DISPLAY_DATE_ASCENDING : eq_str v "displayDate_asc" = false).
    rewrite (H DISPLAY_DATE_DESCENDING : eq_str v "displayDate_desc" = false).
    rewrite (H TITLE_ASCENDING : eq_str v "title_asc" = false).
    rewrite (H TITLE_DESCENDING : eq_str v "title_desc" = false).
    reflexivity.
Qed.

(** ** Zones *)

(** X2.  A zone identifier survives [to_dict] followed by [from_record];
    and the identifier read from a record is written back as the three
    entries of the record, whatever else the record holds. *)
Theorem zone_id_round_trip :
  (forall z, ZoneIDObject_from_record (PDict (ZoneIDObject_to_dict z)) = Ok z)
  /\ (forall d z,
        ZoneIDObject_from_record (PDict d) = Ok z ->
        dict_get "zoneName" d = Some (zone_name z)
        /\ dict_get "zoneType" d = Some (zone_type z)
        /\ dict_get "ownerRecordName" d = Some (owner_record_name z)).
Proof.
  split.
  - intros []. reflexivity.
  - intros d z. unfold ZoneIDObject_from_record, dict_mem, dict_get_default.
    destruct (dict_get "zoneName" d); [|discriminate].
    destruct (dict_get "zoneType" d); [|discriminate].
    destruct (dict_get "ownerRecordName" d); [|discriminate].
    cbn [negb]. intros H. injection H as <-. now repeat split.
Qed.

Lemma zone_from_record_ok (record : pyval) (z : ZoneObject) :
  ZoneObject_from_record record = Ok z ->
  exists d zid,
    record = PDict d
    /\ dict_get "atomic" d = Some (atomic z)
    /\ dict_get "isEligibleForHierarchicalShare" d
       = Some (is_eligible_for_hierarchical_share z)
    /\ dict_get "isEligibleForZoneShare" d
       = Some (is_eligible_for_zone_share z)
    /\ dict_get "zoneID" d = Some (PDict zid)
    /\ ZoneIDObject_from_record (PDict zid) = Ok (zone_id z)
    /\ sync_token z = dict_get_default d "syncToken" PNone
    /\ (dict_mem "syncToken" d = true -> is_str (sync_token z) = true).
Proof.
  destruct record as [| | | | |d| | |]; try discriminate.
  unfold ZoneObject_from_record.
  destruct (negb (truthy (PDict d))); [discriminate|].
  unfold dict_mem, dict_get_default.
  destruct (dict_get "atomic" d) as [a|] eqn:Ea; [|discriminate].
  destruct (dict_get "isEligibleForHierarchicalShare" d) as [h|] eqn:Eh;
    [|discriminate].
  destruct (dict_get "isEligibleForZoneShare" d) as [s|] eqn:Ez;
    [|discriminate].
  cbn [negb].
  destruct (dict_get "zoneID" d) as [[| | | | |zid| | |]|] eqn:Ezid;
    try discriminate.
  destruct (dict_get "zoneName" zid); [|discriminate].
  destruct (dict_get "zoneType" zid); [|discriminate].
  destruct (dict_get "ownerRecordName" zid); [|discriminate].
  cbn [negb].
  destruct (dict_get "syncToken" d) as [t|] eqn:Es.
  - destruct (is_str t) eqn:Estr; [|discriminate]. cbn [negb andb].
    destruct (ZoneIDObject_from_record (PDict zid)) as [zi|] eqn:Ezi;
      [|discriminate].
    intros H. injection H as <-. exists d, zid.
    cbn [atomic is_eligible_for_hierarchical_share
         is_eligible_for_zone_share zone_id sync_token].
    rewrite Es. now repeat split.
  - cbn [andb].
    destruct (ZoneIDObject_from_record (PDict zid)) as [zi|] eqn:Ezi;
      [|discriminate].
    intros H. injection H as <-. exists d, zid.
    cbn [atomic is_eligible_for_hierarchical_share
         is_eligible_for_zone_share zone_id sync_token].
    rewrite Es. repeat split; try assumption. discriminate.
Qed.

(** X3.  [ZoneObject.from_record] raises nothing but
    [PyiCloudAPIResponseException]; the zone it returns holds the entries
    of the record, which is a mapping with [atomic], both eligibility flags
    and a [zoneID] mapping that gives the identifier, and its sync token is
    a [str] whenever the record has one. *)
Theorem zone_from_record_validates (record : pyval) :
  (forall e, ZoneObject_from_record record = Raise e ->
             exists reason, e = PyiCloudAPIResponseException reason)
  /\ (forall z,
        ZoneObject_from_record record = Ok z ->
        exists d zid,
          record = PDict d
          /\ dict_get "atomic" d = Some (atomic z)
          /\ dict_get "isEligibleForHierarchicalShare" d
             = Some (is_eligible_for_hierarchical_share z)
          /\ dict_get "isEligibleForZoneShare" d
             = Some (is_eligible_for_zone_share z)
          /\ dict_get "zoneID" d = Some (PDict zid)
          /\ ZoneIDObject_from_record (PDict zid) = Ok (zone_id z)
          /\ sync_token z = dict_get_default d "syncToken" PNone
          /\ (dict_mem "syncToken" d = true -> is_str (sync_token z) = true)).
Proof.
  split; [|apply zone_from_record_ok].
  intros e.
  destruct record as [| | | | |d| | |];
    try (intros H; injection H as <-; eexists; reflexivity).
  unfold ZoneObject_from_record.
  repeat match goal with
         | |- (if ?c then _ else _) = _ -> _ =>
             destruct c; [intros H; injection H as <-; eexists; reflexivity|]
         end.
  destruct (dict_get "zoneID" d) as [[| | | | |zid| | |]|];
    try (intros H; injection H as <-; eexists; reflexivity).
  repeat match goal with
         | |- (if ?c then _ else _) = _ -> _ =>
             destruct c; [intros H; injection H as <-; eexists; reflexivity|]
         end.
  unfold ZoneIDObject_from_record.
  repeat match goal with
         | |- context [if ?c then _ else _] =>
             destruct c;
             [try (intros H; injection H as <-; eexists; reflexivity)|]
         end; discriminate.
Qed.

(** ** The fetch loop *)

Lemma query_loop_conserves (pending : list pyval) :
  forall (query : dict) (records sent out pending' sent' : list pyval),
    query_loop pending query records sent = (Ok out, pending', sent') ->
    exists consumed posted,
      pending = consumed ++ pending'
      /\ out = records ++ flat_map records_of consumed
      /\ sent' = sent ++ posted
      /\ List.length posted = List.length consumed.
Proof.
  induction pending as [|response pending IH];
    intros query records sent out pending' sent' H.
  - cbn [query_loop] in H. destruct (more_pages query); [discriminate|].
    injection H as <- <- <-. exists [], []. now rewrite !app_nil_r.
  - cbn [query_loop] in H. destruct (more_pages query).
    + destruct (getitem response "records") as [b|] eqn:Eb; [|discriminate].
      destruct (iterate b) as [l|] eqn:El; [|discriminate].
      destruct (get_method response "continuationMarker" PNone) as [m|];
        [|discriminate].
      apply IH in H as (consumed & posted & -> & -> & -> & Hlen).
      exists (response :: consumed), (PDict query :: posted).
      cbn [flat_map List.length app]. unfold records_of at 2.
      rewrite Eb, El, <- !app_assoc. cbn [app].
      repeat split. now rewrite Hlen.
    + injection H as <- <- <-. exists [], []. now rewrite !app_nil_r.
Qed.

(** X4.  A fetch that returns loses, repeats and reorders nothing: it read
    a front part of the answers the session held, returns the records of
    these answers in their order, posted one query per answer read and
    logged nothing. *)
Theorem fetch_all_conserves (query : dict) (w w' : world)
    (records : list pyval) :
  fetch_all query w = (Ok records, w') ->
  exists consumed posted,
    responses w = consumed ++ responses w'
    /\ records = flat_map records_of consumed
    /\ requests w' = requests w ++ posted
    /\ List.length posted = List.length consumed
    /\ log w' = log w.
Proof.
  unfold fetch_all.
  destruct (query_loop (responses w) query [] (requests w))
    as [[r pending] sent] eqn:E.
  intros H. injection H as -> <-. cbn [responses requests log].
  apply query_loop_conserves in E as (consumed & posted & H1 & H2 & H3 & H4).
  exists consumed, posted. now repeat split.
Qed.

Lemma stems_from_set (query q : dict) (m : pyval) (posted : pyval) :
  (forall k, (k =? "continuationMarker") = false ->
             dict_get k q = dict_get k query) ->
  stems_from (dict_set "continuationMarker" m q) posted ->
  stems_from query posted.
Proof.
  intros Hq (q' & -> & Hmore & Hkeys). exists q'. repeat split; [exact Hmore|].
  intros k Hk. rewrite (Hkeys k Hk), dict_get_set_other by exact Hk.
  now apply Hq.
Qed.

Lemma query_loop_posts (pending : list pyval) :
  forall (query : dict) (records sent : list pyval),
    exists posted,
      snd (query_loop pending query records sent) = sent ++ posted
      /\ Forall (stems_from query) posted.
Proof.
  induction pending as [|response pending IH]; intros query records sent.
  - cbn [query_loop]. destruct (more_pages query) eqn:Em.
    + exists [PDict query]. split; [reflexivity|].
      constructor; [|constructor]. now exists query.
    + exists []. now rewrite app_nil_r.
  - cbn [query_loop]. destruct (more_pages query) eqn:Em.
    + assert (Hself : stems_from query (PDict query)) by now exists query.
      destruct (getitem response "records") as [b|];
        [|exists [PDict query]; split; [reflexivity|now constructor]].
      destruct (iterate b) as [l|];
        [|exists [PDict query]; split; [reflexivity|now constructor]].
      destruct (get_method response "continuationMarker" PNone) as [m|];
        [|exists [PDict query]; split; [reflexivity|now constructor]].
      destruct (IH (dict_set "continuationMarker" m query) (records ++ l)
                  (sent ++ [PDict query])) as (posted & Hs & Hall).
      exists (PDict query :: posted). split.
      * rewrite Hs, <- app_assoc. reflexivity.
      * constructor; [exact Hself|].
        eapply Forall_impl; [|exact Hall].
        intros p. now apply stems_from_set.
    + exists []. now rewrite app_nil_r.
Qed.

(** X5.  Whatever the session answers and however the fetch ends, every
    query it posts is the query it was given with at most the continuation
    marker set or replaced, and none is posted with a null marker. *)
Theorem fetch_all_posts (query : dict) (w : world) :
  exists posted,
    requests (snd (fetch_all query w)) = requests w ++ posted
    /\ Forall (stems_from query) posted.
Proof.
  unfold fetch_all.
  destruct (query_loop_posts (responses w) query [] (requests w))
    as (posted & Hs & Hall).
  destruct (query_loop (responses w) query [] (requests w))
    as [[r pending] sent].
  exists posted. split; [exact Hs|exact Hall].
Qed.

Section MoreProperties.

Variable json_loads : string -> option pyval.

(** ** The service and its containers *)

(** X6.  A service that starts is scoped to the primary zone: it fetched
    the zones once, its zone is the first of them named [Reminders], its
    lists are those fetched for this zone, and the start ends with the
    printed and the logged count of the lists. *)
Theorem service_init_scoped (w w' : world) (service : RemindersService) :
  RemindersService_init json_loads w = (Ok service, w') ->
  exists w1 w2,
    _fetch_zones w = (Ok (all_zones service), w1)
    /\ find (named "Reminders") (all_zones service) = Some (zone service)
    /\ named "Reminders" (zone service) = true
    /\ _fetch_lists json_loads (zone service) w1 = (Ok (_lists service), w2)
    /\ responses w' = responses w2
    /\ requests w' = requests w2
    /\ log w'
       = log w2
         ++ [Printed (PInt (Z.of_nat (List.length (_lists service))));
             Warning "Refreshed lists: %d"
               [PInt (Z.of_nat (List.length (_lists service)))]].
Proof.
  intros H. unfold RemindersService_init in H.
  apply bind_ok in H as ([z zones] & w1 & Hz & H).
  cbn [zone_truthy negb] in H.
  apply bind_ok in H as (lists & w3 & Hl & H).
  apply ret_ok in H as [-> ->].
  unfold ZonesContainer_getitem, ZonesContainer_records in Hz.
  apply bind_ok in Hz as (records & w0 & Hf & Hz).
  change (fun record => eq_str (zone_name (zone_id record)) PRIMARY_ZONE_NAME)
    with (named "Reminders") in Hz.
  destruct (find (named "Reminders") records) as [z'|] eqn:Efind;
    [|discriminate].
  apply ret_ok in Hz as [Hz ->]. injection Hz as -> ->.
  unfold ListsContainer_refresh in Hl.
  apply bind_ok in Hl as (fetched & w2 & Hfetch & Hl).
  apply bind_ok in Hl as (u1 & w4 & He1 & Hl).
  apply bind_ok in Hl as (u2 & w5 & He2 & Hl).
  apply ret_ok in Hl as [-> ->].
  unfold emit in He1, He2.
  injection He1 as _ <-. injection He2 as _ <-.
  exists w0, w2. cbn [all_zones zone _lists responses requests log].
  repeat split; try assumption.
  - apply find_some in Efind. apply Efind.
  - now rewrite <- app_assoc.
Qed.

Lemma store_lists_names (objs : list RemindersList) :
  forall (acc lists : lists_dict) (w w' : world),
    for_each store_list objs acc w = (Ok lists, w') ->
    (forall x, forallb (fun kv => Bool.eqb (key_eqb (KStr x) (fst kv))
                                    (eq_str (name (snd kv)) x)) acc = true) ->
    forall x, forallb (fun kv => Bool.eqb (key_eqb (KStr x) (fst kv))
                                   (eq_str (name (snd kv)) x)) lists = true.
Proof.
  induction objs as [|o objs IH]; intros acc lists w w' H Hacc.
  - now apply ret_ok in H as [-> _].
  - cbn [for_each] in H. apply bind_ok in H as (acc1 & w1 & Hs & H).
    unfold store_list in Hs.
    destruct (hash_key (name o)) as [k|] eqn:Ek; [|discriminate].
    apply ret_ok in Hs as [-> ->].
    apply (IH _ _ _ _ H). intros x. specialize (Hacc x).
    clear -Hacc Ek. induction acc as [|[k' v'] acc IHacc].
    + cbn [lists_set forallb fst snd].
      rewrite (hash_key_str _ _ x Ek), eqb_reflx. reflexivity.
    + cbn [lists_set]. cbn [forallb fst snd] in Hacc.
      apply andb_prop in Hacc as [Hhd Htl].
      destruct (key_eqb k k') eqn:Ekk'; cbn [forallb fst snd].
      * rewrite Htl, andb_true_r.
        assert (Hx : key_eqb (KStr x) k' = key_eqb (KStr x) k).
        { destruct (key_eqb (KStr x) k') eqn:E1.
          - apply key_of_str in E1. subst k'.
            apply key_is_str in Ekk'. subst k.
            now rewrite key_eqb_str_refl.
          - destruct (key_eqb (KStr x) k) eqn:E2; [|reflexivity].
            apply key_of_str in E2. subst k.
            apply key_of_str in Ekk'. subst k'.
            now rewrite key_eqb_str_refl in E1. }
        rewrite Hx, (hash_key_str _ _ x Ek). apply eqb_reflx.
      * rewrite Hhd. cbn [andb]. now apply IHacc.
Qed.

Lemma find_by_name (lists : lists_dict) (x : string) :
  forallb (fun kv => Bool.eqb (key_eqb (KStr x) (fst kv))
                       (eq_str (name (snd kv)) x)) lists = true ->
  option_map snd (find (fun kv => eq_str (name (snd kv)) x) lists)
  = lists_get (KStr x) lists.
Proof.
  induction lists as [|[k v] lists IH]; [reflexivity|].
  cbn [forallb fst snd find lists_get]. intros H.
  apply andb_prop in H as [Hhd Htl]. apply eqb_prop in Hhd. rewrite <- Hhd.
  destruct (key_eqb (KStr x) k); [reflexivity|now apply IH].
Qed.

Lemma store_lists_length (objs : list RemindersList) :
  forall (acc lists : lists_dict) (w w' : world),
    for_each store_list objs acc w = (Ok lists, w') ->
    List.length lists <= List.length acc + List.length objs.
Proof.
  induction objs as [|o objs IH]; intros acc lists w w' H.
  - apply ret_ok in H as [-> _]. cbn. lia.
  - cbn [for_each] in H. apply bind_ok in H as (acc1 & w1 & Hs & H).
    unfold store_list in Hs.
    destruct (hash_key (name o)) as [k|]; [|discriminate].
    apply ret_ok in Hs as [-> ->]. apply IH in H.
    assert (Hset : List.length (lists_set k o acc) <= S (List.length acc)).
    { clear. induction acc as [|[k' v'] acc IHacc]; cbn; [lia|].
      destruct (key_eqb k k'); cbn; lia. }
    cbn [List.length]. lia.
Qed.

Lemma comprehension_length {A B} (f : A -> M B) (l : list A) :
  forall (acc out : list B) (w w' : world),
    for_each (fun acc x => y <- f x ;; ret (acc ++ [y])) l acc w
    = (Ok out, w') ->
    List.length out = List.length acc + List.length l.
Proof.
  induction l as [|a l IH]; intros acc out w w' H.
  - apply ret_ok in H as [-> _]. cbn. lia.
  - cbn [for_each] in H. apply bind_ok in H as (acc1 & w1 & Hs & H).
    apply bind_ok in Hs as (y & w2 & _ & Hs). apply ret_ok in Hs as [-> ->].
    apply IH in H. rewrite H, length_app. cbn. lia.
Qed.

(** X7.  In a container that was fetched, looking a list up by identifier
    and by name is one and the same: [get_by_name x] returns the list that
    [get_by_id x] returns and raises [KeyError] when [get_by_id x] does;
    and the container holds at most as many lists as records were
    fetched. *)
Theorem get_by_name_is_get_by_id (zone : ZoneObject) (w w' : world)
    (lists : lists_dict) :
  _fetch_lists json_loads zone w = (Ok lists, w') ->
  (forall service x wx,
      _lists service = lists -> lists <> [] ->
      get_by_name json_loads service x wx
      = match get_by_id json_loads service x wx with
        | (Ok (l, _), wx') => (Ok l, wx')
        | (Raise _, wx') =>
            (Raise (KeyError ("List '" ++ x ++ "' not found.")%string), wx')
        end)
  /\ (exists records w1,
        fetch_all (lists_query zone) w = (Ok records, w1)
        /\ List.length lists <= List.length records).
Proof.
  intros H. unfold _fetch_lists in H.
  apply bind_ok in H as (records & w1 & Hfetch & H).
  apply bind_ok in H as (objs & w2 & Hobjs & H).
  assert (Hw := store_lists_world _ _ _ _ _ H). subst w2.
  split.
  - intros service x wx Hs Hne.
    unfold get_by_name, get_by_id, ListsContainer_records, bind. rewrite Hs.
    destruct lists as [|kv lists']; [contradiction|].
    unfold ret.
    rewrite <- (find_by_name (kv :: lists') x).
    + destruct (find _ (kv :: lists')) as [[k v]|]; reflexivity.
    + apply (store_lists_names _ _ _ _ _ H). reflexivity.
  - exists records, w1. split; [exact Hfetch|].
    apply store_lists_length in H. apply comprehension_length in Hobjs.
    cbn in *. lia.
Qed.


(** ** Unmarshalling *)

Lemma converted_instant (ts t : pyval) :
  timestamp_milliseconds_to_datetime ts = Ok t ->
  t = PNone \/ exists d, t = PDatetime d.
Proof.
  unfold timestamp_milliseconds_to_datetime.
  destruct (as_number ts) as [z|]; [|discriminate].
  destruct (fromtimestamp (z / 1000) (FromMillis z)); cbn [caught];
    intros H; try discriminate; injection H as <-; [right|left]; eauto.
Qed.

(** X8.  An activity that is parsed is either the activity that never
    occurred, from a falsy envelope, or holds an instant, never [None], with
    the user and the device of the envelope; only the envelope [True]
    raises [AssertionError]. *)
Theorem unmarshall_activity_parsed (v : pyval) :
  (forall res,
      unmarshall_activity v = Ok res ->
      (truthy v = false /\ res = no_activity)
      \/ (exists d ts t,
            v = PDict d
            /\ dict_get "timestamp" d = Some ts
            /\ timestamp_milliseconds_to_datetime ts = Ok (PDatetime t)
            /\ res = [("timestamp", PDatetime t);
                      ("user_id", dict_get_default d "userRecordName" PNone);
                      ("device_id", dict_get_default d "deviceID" PNone)]))
  /\ (unmarshall_activity v = Raise AssertionError <-> v = PBool true).
Proof.
  split.
  - intros res. unfold unmarshall_activity.
    destruct v as [|[]| | | |d| | |]; try discriminate.
    + intros H. injection H as <-. now left.
    + destruct d as [|kv d]; [intros H; injection H as <-; now left|].
      cbn [truthy negb].
      destruct (dict_get "timestamp" (kv :: d)) as [ts|] eqn:Ets;
        [|discriminate].
      destruct (timestamp_milliseconds_to_datetime ts) as [t|] eqn:Et;
        [|discriminate].
      destruct (converted_instant _ _ Et) as [->|[i ->]]; [discriminate|].
      intros H. injection H as <-. right. exists (kv :: d), ts, i.
      now repeat split.
  - split.
    + unfold unmarshall_activity.
      destruct v as [|[]| | | |d| | |]; try discriminate; [reflexivity|].
      destruct d as [|kv d]; [discriminate|]. cbn [truthy negb].
      destruct (dict_get "timestamp" (kv :: d)) as [ts|]; [|discriminate].
      unfold timestamp_milliseconds_to_datetime.
      destruct (as_number ts) as [z|]; [|discriminate].
      unfold fromtimestamp.
      repeat match goal with
             | |- context [if ?c then _ else _] => destruct c
             end; discriminate.
    + now intros ->.
Qed.


(** X10.  An [INT64] field of the boolean set ([deleted], [imported],
    [is_group], [is_linked_to_account], [should_categorize_grocery_items])
    whose payload is an integer ends as a [bool], [True] for 1 and [False]
    for every other integer, without a diagnostic. *)
Theorem boolean_field_is_one (data fields : dict)
    (record_id field_value : pyval) (wire_name : string) (z : Z) (w : world) :
  in_list (to_snake_case wire_name) BOOLEAN_FIELDS = true ->
  getitem field_value "type" = Ok (PStr "INT64") ->
  getitem field_value "value" = Ok (PInt z) ->
  unmarshall_field json_loads data record_id fields (wire_name, field_value) w
  = (Ok (dict_set (to_snake_case wire_name) (PBool (z =? 1)%Z) fields), w).
Proof.
  intros Hin Ht Hv. unfold unmarshall_field. cbn [fst snd].
  assert (Hc : coerce record_id (to_snake_case wire_name) field_value w
               = (Ok (PInt z), w)).
  { unfold coerce. rewrite bind_lift, Ht.
    change (eq_str (PStr "INT64") "STRING") with false.
    change (eq_str (PStr "INT64") "INT64") with true. cbv iota.
    now rewrite bind_lift, Hv. }
  rewrite (bind_eq _ _ _ _ _ Hc).
  unfold post_process.
  assert (Hj : in_list (to_snake_case wire_name) JSON_FIELDS = false).
  { revert Hin. unfold in_list, BOOLEAN_FIELDS, JSON_FIELDS. cbn [existsb].
    intros Hin.
    repeat (apply orb_prop in Hin as [Hin|Hin];
            [apply String.eqb_eq in Hin; rewrite Hin; reflexivity|]).
    discriminate. }
  rewrite Hj, Hin. unfold ret. cbn [eq_one]. now rewrite dict_set_set.
Qed.

(** X11.  The unmarshalled record has exactly the attributes its entries
    give rise to: [record_id] for [recordName], three attributes for each
    of [created], [modified] and [deleted], [expiration_date] for
    [expirationTime], [fields] for [fields], and the canonical name of
    every other key; no entry is dropped and none is invented. *)
Theorem unmarshall_attribute_names (r data : dict) (w w' : world) :
  unmarshall json_loads r w = (Ok data, w') ->
  forall a, dict_mem a data = existsb (fun e => produces e a) r.
Proof.
  intros H a. unfold unmarshall in H.
  now rewrite (unmarshall_keys json_loads _ _ _ _ _ _ H a).
Qed.

Lemma unmarshall_item_name (data acc res : dict) (entry : string * pyval)
    (w w' : world) :
  fst entry = "fields" ->
  unmarshall_item json_loads data acc entry w = (Ok res, w') ->
  exists F v,
    dict_get "fields" res = Some (PDict F)
    /\ dict_get "name" F = Some v
    /\ truthy v = true.
Proof.
  intros Hk H. unfold unmarshall_item in H. cbv zeta in H.
  rewrite Hk in H.
  change ("fields" =? "recordName") with false in H.
  change (in_list "fields" ["created"; "deleted"; "modified"]) with false in H.
  change ("fields" =? "expirationTime") with false in H.
  change ("fields" =? "fields") with true in H.
  cbv iota in H.
  apply bind_ok in H as (entries & w1 & _ & H).
  apply bind_ok in H as (fields & w2 & _ & H).
  apply bind_ok in H as (fields' & w3 & Hname & H).
  apply ret_ok in H as [-> _].
  destruct (negb (dict_mem "name" fields)
            || negb (truthy (dict_get_default fields "name" PNone))) eqn:E.
  - apply emit_then_ok in Hname as (w4 & Hname).
    apply ret_ok in Hname as [-> _].
    exists (dict_set "name" (PStr "Unknown") fields), (PStr "Unknown").
    now rewrite !dict_get_set_same.
  - apply ret_ok in Hname as [-> _].
    apply orb_false_elim in E as [E1 E2].
    apply negb_false_iff in E1. apply negb_false_iff in E2.
    unfold dict_mem in E1. unfold dict_get_default in E2.
    destruct (dict_get "name" fields) as [v|] eqn:Ev; [|discriminate].
    exists fields, v. now rewrite dict_get_set_same.
Qed.

Lemma unmarshall_name (data : dict) (entries : dict) :
  forall (acc res : dict) (w w' : world),
    for_each (unmarshall_item json_loads data) entries acc w = (Ok res, w') ->
    unique_keys entries = true ->
    plain_fields entries = true ->
    dict_mem "fields" entries = true ->
    exists F v,
      dict_get "fields" res = Some (PDict F)
      /\ dict_get "name" F = Some v
      /\ truthy v = true.
Proof.
  induction entries as [|[k x] entries IH]; intros acc res w w' H Hu Hp Hg.
  - discriminate.
  - cbn [for_each] in H. apply bind_ok in H as (acc1 & w1 & He & H).
    cbn [unique_keys] in Hu. apply andb_prop in Hu as [Hk Hu].
    apply negb_true_iff in Hk.
    unfold plain_fields in Hp. cbn [forallb fst] in Hp.
    apply andb_prop in Hp as [Hp1 Hp].
    rewrite dict_mem_cons in Hg.
    destruct ("fields" =? k) eqn:E.
    + apply String.eqb_eq in E. subst k.
      destruct (unmarshall_item_name _ _ _ ("fields", x) _ _ eq_refl He)
        as (F & v & HF & Hv & Ht).
      exists F, v. repeat split; try assumption.
      rewrite (unmarshall_get_other json_loads _ _ _ _ _ _ _ H); [exact HF|].
      now apply no_key_no_fields.
    + apply (IH _ _ _ _ H Hu Hp Hg).
Qed.

(** X12.  Every record with a [fields] map is unmarshalled to fields with a
    name that is truthy: a name that is missing or empty (or any other
    falsy value) is replaced by ["Unknown"]. *)
Theorem unmarshalled_name_truthy (r data : dict) (w w' : world) :
  unique_keys r = true ->
  plain_fields r = true ->
  dict_mem "fields" r = true ->
  unmarshall json_loads r w = (Ok data, w') ->
  exists F v,
    dict_get "fields" data = Some (PDict F)
    /\ dict_get "name" F = Some v
    /\ truthy v = true.
Proof.
  intros Hu Hp Hf H. unfold unmarshall in H.
  exact (unmarshall_name _ _ _ _ _ _ H Hu Hp Hf).
Qed.


(** ** Canonical names, again *)



(** ** What unmarshalling leaves alone *)

Lemma quiet_ret {A} (a : A) : quiet (ret a).
Proof. intros w. cbn. repeat split. exists []. now rewrite app_nil_r. Qed.

Lemma quiet_raise {A} (e : exn) : quiet (@raise A e).
Proof. intros w. cbn. repeat split. exists []. now rewrite app_nil_r. Qed.

Lemma quiet_lift {A} (r : result A) : quiet (lift r).
Proof. intros w. cbn. repeat split. exists []. now rewrite app_nil_r. Qed.

Lemma quiet_emit (d : diag) : quiet (emit d).
Proof. intros w. cbn. repeat split. now exists [d]. Qed.

Lemma quiet_bind {A B} (m : M A) (k : A -> M B) :
  quiet m -> (forall a, quiet (k a)) -> quiet (bind m k).
Proof.
  intros Hm Hk w. unfold bind. specialize (Hm w).
  destruct (m w) as [[a|e] w1]; cbn [snd] in *; [|exact Hm].
  destruct Hm as (H1 & H2 & l1 & H3).
  destruct (Hk a w1) as (H4 & H5 & l2 & H6).
  rewrite H4, H5, H6, H1, H2, H3. repeat split.
  exists (l1 ++ l2). now rewrite app_assoc.
Qed.

Lemma quiet_reraising {A} (m : M A) (h : M unit) :
  quiet m -> quiet h -> quiet (reraising m h).
Proof.
  intros Hm Hh w. unfold reraising. specialize (Hm w).
  destruct (m w) as [[a|e] w1]; cbn [snd] in *; [exact Hm|].
  destruct Hm as (H1 & H2 & l1 & H3).
  destruct (Hh w1) as (H4 & H5 & l2 & H6).
  destruct (h w1) as [[u|e'] w2]; cbn [snd] in *;
    rewrite H4, H5, H6, H1, H2, H3; repeat split;
    exists (l1 ++ l2); now rewrite app_assoc.
Qed.

Lemma quiet_for_each {A B} (body : B -> A -> M B) (l : list A) :
  (forall acc a, quiet (body acc a)) -> forall acc, quiet (for_each body l acc).
Proof.
  intros Hbody. induction l as [|a l IH]; intros acc; cbn [for_each].
  - apply quiet_ret.
  - apply quiet_bind; [apply Hbody|exact IH].
Qed.

Ltac quiet_step :=
  first [ apply quiet_ret | apply quiet_raise | apply quiet_lift
        | apply quiet_emit
        | apply quiet_bind; [|intros ?]
        | apply quiet_reraising
        | apply quiet_for_each; intros ? ?
        | match goal with
          | |- quiet (if ?c then _ else _) => destruct c
          | |- quiet (match ?x with _ => _ end) => destruct x
          end ].

Lemma quiet_unmarshall (r : dict) : quiet (unmarshall json_loads r).
Proof.
  unfold unmarshall. apply quiet_for_each. intros acc entry.
  unfold unmarshall_item. cbv zeta.
  repeat quiet_step.
  unfold unmarshall_field, coerce, post_process. cbv zeta.
  repeat quiet_step.
Qed.

Lemma quiet_from_data (cls : ListVariant) (data : dict) :
  quiet (from_data cls data).
Proof.
  unfold from_data, StandardRemindersList_init, SharedRemindersList_init,
    EnhancedRemindersList_init, StandardRemindersList_init.
  repeat quiet_step.
Qed.

(** X14.  Building a list from a record uses no session: whatever the
    record and however [from_record] ends, no answer is read and no query
    is posted; the log is only added to. *)
Theorem from_record_quiet (record : pyval) (w : world) :
  responses (snd (from_record json_loads record w)) = responses w
  /\ requests (snd (from_record json_loads record w)) = requests w
  /\ exists l, log (snd (from_record json_loads record w)) = log w ++ l.
Proof.
  revert w. change (quiet (from_record json_loads record)).
  unfold from_record. apply quiet_bind.
  - unfold flatten_record.
    repeat first [ apply quiet_unmarshall | quiet_step ].
    unfold merge_field. repeat quiet_step.
  - intros data. apply quiet_reraising; [|apply quiet_emit].
    repeat first [ apply quiet_from_data | quiet_step ].
Qed.


(** ** From a record to a list, step by step *)

Lemma merge_fields_get (entries : dict) :
  forall (data final : dict) (w w' : world),
    for_each merge_field entries data w = (Ok final, w') ->
    forall a, dict_mem a data = true -> (a =? "name") = false ->
              dict_get a final = dict_get a data.
Proof.
  induction entries as [|[k v] entries IH]; intros data final w w' H a Ha Hn.
  - now apply ret_ok in H as [-> _].
  - rewrite merge_fields_cons in H.
    destruct (dict_mem k data && negb (in_list k ["name"])) eqn:E;
      [discriminate|].
    destruct (a =? k) eqn:Eak.
    + apply String.eqb_eq in Eak. subst k.
      unfold in_list in E. cbn [existsb] in E.
      rewrite Ha, Hn in E. discriminate E.
    + rewrite (IH _ _ _ _ H a); [now apply dict_get_set_other| |exact Hn].
      now rewrite dict_mem_set, Ha, orb_true_r.
Qed.


(** What [from_record] has done when it reaches its [try] statement. *)
Lemma flatten_record_inv (record : pyval) (final : dict) (w w' : world) :
  flatten_record json_loads record w = (Ok final, w') ->
  exists r t data rid F nm merged,
    record = PDict r
    /\ dict_get "recordType" r = Some t
    /\ eq_str t "List" = true
    /\ unmarshall json_loads r w = (Ok data, w')
    /\ dict_get "record_id" data = Some rid
    /\ dict_get "fields" data = Some (PDict F)
    /\ dict_get "name" F = Some nm
    /\ for_each merge_field (dict_remove "name" F) (prepared data rid nm F) w'
       = (Ok merged, w')
    /\ final = dict_remove "zone_id" (dict_remove "fields" merged).
Proof.
  intros H. unfold flatten_record in H.
  apply bind_ok in H as (record_type & w1 & Ht & H).
  destruct (eq_str record_type "List") eqn:Hlist; [|discriminate].
  cbn [negb] in H.
  apply bind_ok in H as (r & w2 & Hr & H).
  apply lift_ok in Ht as [Ht ->]. apply lift_ok in Hr as [Hr ->].
  destruct record as [| | | | |r0| | |]; try discriminate.
  injection Hr as ->.
  cbn [getitem] in Ht. unfold dict_item in Ht.
  destruct (dict_get "recordType" r) as [t|] eqn:Hrt; [|discriminate].
  injection Ht as <-.
  apply bind_ok in H as (data & w1 & Hdata & H).
  destruct (negb (truthy (PDict data))); [discriminate|].
  apply bind_ok in H as ([record_id data1] & w2 & Hpop & H).
  apply lift_ok in Hpop as [Hpop ->].
  unfold dict_pop in Hpop.
  destruct (dict_get "record_id" data) as [rid|] eqn:Hrid; [|discriminate].
  injection Hpop as <- <-.
  apply bind_ok in H as (fields & w2 & Hf & H).
  apply lift_ok in Hf as [Hf ->].
  unfold dict_item in Hf.
  rewrite dict_get_set_other, dict_get_remove_other in Hf by reflexivity.
  destruct (dict_get "fields" data) as [fv|] eqn:Hfv; [|discriminate].
  injection Hf as ->.
  apply bind_ok in H as ([list_name fields'] & w2 & Hn & H).
  apply lift_ok in Hn as [Hn ->].
  destruct fields as [| | | | |F| | |]; try discriminate.
  unfold pop_method, dict_pop in Hn.
  destruct (dict_get "name" F) as [nm|] eqn:Hnm; [|discriminate].
  injection Hn as <- <-.
  apply bind_ok in H as (data4 & w2 & Hd & H).
  apply lift_ok in Hd as [Hd ->]. apply dict_del_ok in Hd. subst data4.
  apply bind_ok in H as (fields2 & w2 & Hf2 & H).
  apply lift_ok in Hf2 as [Hf2 ->].
  unfold dict_item in Hf2.
  rewrite dict_get_remove_other, dict_get_set_other, dict_get_set_same in Hf2
    by reflexivity.
  injection Hf2 as <-.
  apply bind_ok in H as (entries & w2 & He & H).
  apply lift_ok in He as [He ->]. injection He as <-.
  apply bind_ok in H as (data5 & w2 & Hm & H).
  pose proof (merge_fields_ok _ _ _ _ _ Hm) as [-> _].
  apply bind_ok in H as (data6 & w2 & Hd & H).
  apply lift_ok in Hd as [Hd ->]. apply dict_del_ok in Hd. subst data6.
  apply lift_ok in H as [Hd ->]. apply dict_del_ok in Hd. subst final.
  exists r, t, data, rid, F, nm, data5. now repeat split.
Qed.

Lemma from_record_inv (record : pyval) (l : RemindersList) (w w' : world) :
  from_record json_loads record w = (Ok l, w') ->
  exists cls,
    flatten_record json_loads record w = (Ok (attrs l), w')
    /\ from_data cls (attrs l) w' = (Ok l, w')
    /\ variant l = cls
    /\ cls = (if dict_mem "share" (attrs l) then Shared
              else if dict_mem "should_categorize_grocery_items" (attrs l)
                   then Enhanced else Standard).
Proof.
  intros H. unfold from_record in H.
  apply bind_ok in H as (final & w1 & Hflat & H).
  apply reraising_ok in H.
  assert (Hw : forall cls, from_data cls final w1 = (Ok l, w') ->
                           l = {| variant := cls; attrs := final |}
                           /\ w' = w1).
  { intros cls Hd. split; [exact (from_data_ok _ _ _ _ _ Hd)|].
    pose proof (quiet_from_data cls final w1) as (_ & _ & _).
    unfold from_data in Hd.
    destruct (dict_mem "service" final || dict_mem "self" final);
      [discriminate|].
    apply bind_ok in Hd as (u & w2 & Hinit & Hd).
    apply ret_ok in Hd as [_ ->].
    destruct cls; cbv beta iota in Hinit;
      unfold SharedRemindersList_init, EnhancedRemindersList_init in Hinit;
      repeat match type of Hinit with
             | (if ?c then _ else _) _ = _ => destruct c; [|discriminate]
             end;
      unfold StandardRemindersList_init in Hinit;
      apply reraising_ok in Hinit; now apply lift_ok in Hinit as [_ ->]. }
  destruct (dict_mem "share" final) eqn:Es;
    [|destruct (dict_mem "should_categorize_grocery_items" final) eqn:Ec];
    destruct (Hw _ H) as [-> ->]; cbn [attrs variant];
    eexists; rewrite ?Es, ?Ec; repeat split; try eassumption; reflexivity.
Qed.

Lemma prepared_list_name (data : dict) (rid nm : pyval) (F : dict) :
  dict_get "list_name" (prepared data rid nm F) = Some nm.
Proof.
  unfold prepared.
  now rewrite dict_get_remove_other, dict_get_set_same by reflexivity.
Qed.

Lemma prepared_list_id (data : dict) (rid nm : pyval) (F : dict) :
  dict_get "list_id" (prepared data rid nm F) = Some rid.
Proof.
  unfold prepared.
  now rewrite dict_get_remove_other, !dict_get_set_other, dict_get_set_same
    by reflexivity.
Qed.

(** X15.  No field takes the place of the name or of the identifier: the
    list that [from_record] builds is named by the field [name] of the
    unmarshalled record and identified by its [record_id]. *)
Theorem from_record_identity (record : pyval) (l : RemindersList)
    (w w' : world) :
  from_record json_loads record w = (Ok l, w') ->
  exists r data F,
    record = PDict r
    /\ unmarshall json_loads r w = (Ok data, w')
    /\ dict_get "fields" data = Some (PDict F)
    /\ dict_get "name" F = Some (name l)
    /\ dict_get "record_id" data = Some (list_id l).
Proof.
  intros H. apply from_record_inv in H as (cls & Hflat & _).
  apply flatten_record_inv in Hflat
    as (r & t & data & rid & F & nm & merged & -> & _ & _ & Hdata & Hrid
        & HF & Hnm & Hm & Hfinal).
  exists r, data, F. repeat split; try assumption.
  - rewrite Hnm. f_equal. unfold name, dict_get_default. rewrite Hfinal.
    rewrite !dict_get_remove_other by reflexivity.
    rewrite (merge_fields_get _ _ _ _ _ Hm);
      [now rewrite prepared_list_name
      |unfold dict_mem; now rewrite prepared_list_name
      |reflexivity].
  - rewrite Hrid. f_equal. unfold list_id, dict_get_default. rewrite Hfinal.
    rewrite !dict_get_remove_other by reflexivity.
    rewrite (merge_fields_get _ _ _ _ _ Hm);
      [now rewrite prepared_list_id
      |unfold dict_mem; now rewrite prepared_list_id
      |reflexivity].
Qed.




(** ** What the constructors accept *)

Lemma in_list_app (a : string) (l1 l2 : list string) :
  in_list a (l1 ++ l2) = in_list a l1 || in_list a l2.
Proof. unfold in_list. apply existsb_app. Qed.

Lemma keys_within_unremove (L : list string) (k : string) (d : dict) :
  in_list k L = true ->
  keys_within L (dict_remove k d) = true -> keys_within L d = true.
Proof.
  intros Hk. unfold keys_within.
  induction d as [|[k' v] d IH]; cbn [dict_remove forallb fst];
    [reflexivity|].
  destruct (k =? k') eqn:E.
  - apply String.eqb_eq in E. subst k'. intros ->. now rewrite Hk.
  - cbn [forallb fst]. intros H. apply andb_prop in H as [-> H].
    now apply IH.
Qed.

Lemma keys_within_remove (L : list string) (k : string) (d : dict) :
  keys_within L d = true -> keys_within L (dict_remove k d) = true.
Proof.
  unfold keys_within.
  induction d as [|[k' v] d IH]; cbn [dict_remove forallb fst];
    [reflexivity|].
  intros H. apply andb_prop in H as [H1 H2].
  destruct (k =? k'); [exact H2|].
  cbn [forallb fst]. now rewrite H1, IH.
Qed.

Lemma keys_within_incl (L L' : list string) (d : dict) :
  (forall a, in_list a L = true -> in_list a L' = true) ->
  keys_within L d = true -> keys_within L' d = true.
Proof.
  intros Hincl. unfold keys_within. rewrite !forallb_forall.
  intros H x Hx. apply Hincl. now apply H.
Qed.

Lemma keys_within_absent (L : list string) (k : string) (d : dict) :
  keys_within L d = true -> in_list k L = false -> dict_mem k d = false.
Proof.
  unfold keys_within. intros H Hk.
  induction d as [|[k' v] d IH]; [reflexivity|].
  cbn [forallb fst] in H. apply andb_prop in H as [H1 H2].
  rewrite dict_mem_cons. rewrite (IH H2), orb_false_r.
  destruct (k =? k') eqn:E; [|reflexivity].
  apply String.eqb_eq in E. subst k'. congruence.
Qed.

Lemma dict_mem_remove_sub (k k' : string) (d : dict) :
  dict_mem k (dict_remove k' d) = true -> dict_mem k d = true.
Proof.
  induction d as [|[k0 v] d IH]; cbn [dict_remove]; [trivial|].
  destruct (k' =? k0).
  - intros H. rewrite dict_mem_cons, H. apply orb_true_r.
  - rewrite !dict_mem_cons. destruct (k =? k0); [reflexivity|exact IH].
Qed.

Lemma required_unremove (R : list string) (k' : string) (d : dict) :
  forallb (fun k => dict_mem k (dict_remove k' d)) R = true ->
  forallb (fun k => dict_mem k d) R = true.
Proof.
  rewrite !forallb_forall. intros H k Hk.
  apply (dict_mem_remove_sub k k'). now apply H.
Qed.

Lemma required_remove (R : list string) (k' : string) (d : dict) :
  in_list k' R = false ->
  forallb (fun k => dict_mem k d) R = true ->
  forallb (fun k => dict_mem k (dict_remove k' d)) R = true.
Proof.
  intros Hk'. rewrite !forallb_forall. intros H k Hk.
  rewrite dict_mem_remove_other; [now apply H|].
  destruct (k =? k') eqn:E; [|reflexivity].
  apply String.eqb_eq in E. subst k'.
  unfold in_list in Hk'. rewrite <- not_true_iff_false in Hk'.
  exfalso. apply Hk'. apply existsb_exists. exists k.
  split; [exact Hk|apply String.eqb_refl].
Qed.

(** The base constructor accepts the arguments [d]. *)
Lemma base_init_iff (d : dict) :
  BaseRemindersList_init d = Ok tt
  <-> keys_within (BASE_REQUIRED ++ BASE_OPTIONAL) d = true
      /\ forallb (fun k => dict_mem k d) BASE_REQUIRED = true.
Proof.
  unfold BaseRemindersList_init, bind_arguments, keys_within. split.
  - intros H.
    destruct (forallb _ d); [|discriminate].
    destruct (forallb _ BASE_REQUIRED); [|discriminate]. now split.
  - intros [-> ->]. reflexivity.
Qed.

Lemma standard_init_ok (d : dict) (w w' : world) (u : unit) :
  StandardRemindersList_init d w = (Ok u, w') ->
  BaseRemindersList_init
    (dict_remove "parent_list" (dict_remove "expiration_date" d)) = Ok tt
  /\ w' = w.
Proof.
  unfold StandardRemindersList_init. intros H.
  apply reraising_ok in H. apply lift_ok in H as [H ->].
  destruct u. now split.
Qed.

Lemma standard_init_accepts (d : dict) (w : world) :
  BaseRemindersList_init
    (dict_remove "parent_list" (dict_remove "expiration_date" d)) = Ok tt ->
  StandardRemindersList_init d w = (Ok tt, w).
Proof.
  unfold StandardRemindersList_init, reraising, lift. now intros ->.
Qed.

Lemma from_data_inv (cls : ListVariant) (data : dict) (l : RemindersList)
    (w w' : world) :
  from_data cls data w = (Ok l, w') ->
  dict_mem "service" data || dict_mem "self" data = false
  /\ match cls with
     | Standard => StandardRemindersList_init data w
     | Shared => SharedRemindersList_init data w
     | Enhanced => EnhancedRemindersList_init data w
     end = (Ok tt, w').
Proof.
  unfold from_data.
  destruct (dict_mem "service" data || dict_mem "self" data);
    [discriminate|].
  intros H. apply bind_ok in H as ([] & w1 & Hinit & H).
  apply ret_ok in H as [_ ->]. split; [reflexivity|].
  destruct cls; exact Hinit.
Qed.

Lemma standard_init_remove (k : string) (d : dict) (w w' : world) :
  in_list k BASE_REQUIRED = false ->
  StandardRemindersList_init d w = (Ok tt, w') ->
  StandardRemindersList_init (dict_remove k d) w = (Ok tt, w).
Proof.
  intros Hk H. apply standard_init_ok in H as [H _].
  apply base_init_iff in H as [Hkeys Hreq].
  apply keys_within_unremove in Hkeys; [|reflexivity].
  apply keys_within_unremove in Hkeys; [|reflexivity].
  do 2 apply required_unremove in Hreq.
  apply standard_init_accepts. apply base_init_iff. split.
  - now do 3 apply keys_within_remove.
  - do 2 (apply required_remove; [reflexivity|]).
    now apply required_remove.
Qed.

(** X17.  What [StandardRemindersList] accepts, [EnhancedRemindersList]
    accepts, and so does [SharedRemindersList] once [share], [stable_url]
    and [short_guid] are given. *)
Theorem standard_arguments_accepted (data : dict) (l : RemindersList)
    (w w' : world) :
  from_data Standard data w = (Ok l, w') ->
  from_data Enhanced data w
  = (Ok {| variant := Enhanced; attrs := data |}, w')
  /\ (dict_mem "share" data && dict_mem "stable_url" data
      && dict_mem "short_guid" data = true ->
      from_data Shared data w
      = (Ok {| variant := Shared; attrs := data |}, w')).
Proof.
  intros H. apply from_data_inv in H as [Hs H].
  pose proof (standard_init_ok _ _ _ _ H) as [_ ->].
  split.
  - unfold from_data. rewrite Hs. unfold EnhancedRemindersList_init.
    rewrite (bind_eq _ _ w w tt); [reflexivity|].
    apply (standard_init_remove _ _ w w); [reflexivity|].
    now apply (standard_init_remove _ _ w w).
  - intros Hgiven. unfold from_data. rewrite Hs.
    unfold SharedRemindersList_init. rewrite Hgiven.
    rewrite (bind_eq _ _ w w tt); [reflexivity|].
    apply (standard_init_remove _ _ w w); [reflexivity|].
    apply (standard_init_remove _ _ w w); [reflexivity|].
    apply (standard_init_remove _ _ w w); [reflexivity|].
    now apply (standard_init_remove _ _ w w).
Qed.


Lemma standard_init_within (d : dict) (w w' : world) (u : unit) :
  StandardRemindersList_init d w = (Ok u, w') ->
  keys_within (BASE_REQUIRED ++ BASE_OPTIONAL) d = true
  /\ forallb (fun k => dict_mem k d) BASE_REQUIRED = true.
Proof.
  intros H. apply standard_init_ok in H as [H _].
  apply base_init_iff in H as [Hkeys Hreq].
  apply keys_within_unremove in Hkeys; [|reflexivity].
  apply keys_within_unremove in Hkeys; [|reflexivity].
  do 2 apply required_unremove in Hreq. now split.
Qed.

Lemma parameters_incl (a : string) :
  in_list a (BASE_REQUIRED ++ BASE_OPTIONAL) = true ->
  in_list a PARAMETERS = true.
Proof.
  unfold PARAMETERS. rewrite app_assoc, (in_list_app a (_ ++ _)).
  now intros ->.
Qed.

(** X18.  A list that [from_record] builds holds every argument the base
    constructor requires and no attribute that is not a parameter of its
    constructor; [should_auto_categorize_items] is held by a shared or an
    enhanced list only. *)
Theorem from_record_attributes (record : pyval) (l : RemindersList)
    (w w' : world) :
  from_record json_loads record w = (Ok l, w') ->
  forallb (fun k => dict_mem k (attrs l)) BASE_REQUIRED = true
  /\ keys_within PARAMETERS (attrs l) = true
  /\ (variant l = Standard ->
      dict_mem "should_auto_categorize_items" (attrs l) = false).
Proof.
  intros H. apply from_record_inv in H as (cls & _ & Hdata & Hv & _).
  apply from_data_inv in Hdata as [_ Hinit].
  destruct cls.
  - apply standard_init_within in Hinit as [Hkeys Hreq].
    repeat split; [exact Hreq| |].
    + exact (keys_within_incl _ _ _ parameters_incl Hkeys).
    + intros _. now apply (keys_within_absent _ _ _ Hkeys).
  - unfold SharedRemindersList_init in Hinit.
    destruct (dict_mem "share" (attrs l) && dict_mem "stable_url" (attrs l)
              && dict_mem "short_guid" (attrs l)); [|discriminate].
    apply standard_init_within in Hinit as [Hkeys Hreq].
    do 4 apply required_unremove in Hreq.
    apply (keys_within_incl _ _ _ parameters_incl) in Hkeys.
    do 4 (apply keys_within_unremove in Hkeys; [|reflexivity]).
    repeat split; [exact Hreq|exact Hkeys|].
    intros Hs. rewrite Hs in Hv. discriminate Hv.
  - unfold EnhancedRemindersList_init in Hinit.
    apply standard_init_within in Hinit as [Hkeys Hreq].
    do 2 apply required_unremove in Hreq.
    apply (keys_within_incl _ _ _ parameters_incl) in Hkeys.
    do 2 (apply keys_within_unremove in Hkeys; [|reflexivity]).
    repeat split; [exact Hreq|exact Hkeys|].
    intros Hs. rewrite Hs in Hv. discriminate Hv.
Qed.

(** ** Export *)

Lemma json_not_enum (v : pyval) : is_json v = true -> is_enum v = false.
Proof. now destruct v. Qed.

Lemma json_entries (d : dict) :
  is_json (PDict d) = true -> forallb (fun kv => is_json (snd kv)) d = true.
Proof.
  induction d as [|[k v] d IH]; [reflexivity|].
  cbn [is_json forallb snd]. intros H. apply andb_prop in H as [-> H].
  now rewrite (IH H).
Qed.

Lemma json_no_bare (d : dict) :
  is_json (PDict d) = true -> no_bare_style d = true.
Proof.
  intros H. apply json_entries in H. unfold no_bare_style.
  rewrite forallb_forall in H |- *. intros kv Hkv.
  rewrite (json_not_enum _ (H kv Hkv)). now rewrite andb_false_r.
Qed.

Lemma no_bare_set (k : string) (v : pyval) (d : dict) :
  no_bare_style d = true ->
  (k =? "sorting_style") && is_enum v = false ->
  no_bare_style (dict_set k v d) = true.
Proof.
  unfold no_bare_style. intros Hd Hv.
  induction d as [|[k' v'] d IH]; cbn [dict_set forallb fst snd].
  - now rewrite Hv.
  - cbn [forallb fst snd] in Hd. apply andb_prop in Hd as [H1 H2].
    destruct (k =? k'); cbn [forallb fst snd].
    + now rewrite Hv, H2.
    + now rewrite H1, (IH H2).
Qed.

Lemma no_bare_remove (k : string) (d : dict) :
  no_bare_style d = true -> no_bare_style (dict_remove k d) = true.
Proof.
  unfold no_bare_style.
  induction d as [|[k' v'] d IH]; cbn [dict_remove forallb fst snd];
    [reflexivity|].
  intros H. apply andb_prop in H as [H1 H2].
  destruct (k =? k'); [exact H2|].
  cbn [forallb fst snd]. now rewrite H1, (IH H2).
Qed.

Lemma no_bare_get (d : dict) (v : pyval) :
  no_bare_style d = true ->
  dict_get "sorting_style" d = Some v -> is_enum v = false.
Proof.
  unfold no_bare_style.
  induction d as [|[k' v'] d IH]; [discriminate|].
  cbn [forallb fst snd dict_get]. intros H Hg.
  apply andb_prop in H as [H1 H2].
  destruct ("sorting_style" =? k') eqn:E.
  - apply String.eqb_eq in E. subst k'. injection Hg as ->.
    cbn [String.eqb Ascii.eqb Bool.eqb andb] in H1.
    now apply negb_true_iff in H1.
  - now apply IH.
Qed.

(** A field is never left with a bare enumeration member as its sorting
    style. *)
Lemma unmarshall_field_no_bare (data : dict) (rid : pyval) (fields res : dict)
    (entry : string * pyval) (w w' : world) :
  unmarshall_field json_loads data rid fields entry w = (Ok res, w') ->
  no_bare_style fields = true -> no_bare_style res = true.
Proof.
  unfold unmarshall_field. cbv zeta.
  remember (to_snake_case (fst entry)) as fn eqn:Hfn. clear Hfn.
  intros H Hfields.
  apply bind_ok in H as (v & w1 & _ & H).
  unfold post_process in H.
  destruct (fn =? "sorting_style") eqn:Ess.
  - apply String.eqb_eq in Ess. subst fn.
    change (in_list "sorting_style" JSON_FIELDS) with false in H.
    change (in_list "sorting_style" BOOLEAN_FIELDS) with false in H.
    change (in_list "sorting_style" ["sorting_style"]) with true in H.
    cbv iota in H.
    apply bind_ok in H as (raw & w2 & _ & H).
    apply bind_ok in H as (value & w3 & _ & H).
    apply bind_ok in H as (style & w4 & _ & H).
    apply ret_ok in H as [-> _].
    rewrite dict_set_set. now apply no_bare_set.
  - assert (Hset : forall x,
               no_bare_style (dict_set fn x (dict_set fn v fields)) = true).
    { intros x. apply no_bare_set; [|now rewrite Ess].
      apply no_bare_set; [exact Hfields|now rewrite Ess]. }
    assert (Hone : no_bare_style (dict_set fn v fields) = true).
    { apply no_bare_set; [exact Hfields|now rewrite Ess]. }
    destruct (in_list fn JSON_FIELDS).
    + apply bind_ok in H as (text & w2 & _ & H).
      destruct (as_str text) as [s|]; [|discriminate].
      destruct (json_loads s) as [parsed|].
      * apply ret_ok in H as [-> _]. apply Hset.
      * apply emit_then_ok in H as (w3 & H).
        apply ret_ok in H as [-> _]. apply Hset.
    + destruct (in_list fn BOOLEAN_FIELDS).
      * apply ret_ok in H as [-> _]. apply Hset.
      * destruct (in_list fn ["sorting_style"]).
        -- apply bind_ok in H as (raw & w2 & _ & H).
           apply bind_ok in H as (value & w3 & _ & H).
           apply bind_ok in H as (style & w4 & _ & H).
           apply ret_ok in H as [-> _]. apply Hset.
        -- apply ret_ok in H as [-> _]. exact Hone.
Qed.

Lemma unmarshall_fields_no_bare (data : dict) (rid : pyval)
    (entries : dict) :
  forall (fields res : dict) (w w' : world),
    for_each (unmarshall_field json_loads data rid) entries fields w
    = (Ok res, w') ->
    no_bare_style fields = true -> no_bare_style res = true.
Proof.
  induction entries as [|e entries IH]; intros fields res w w' H Hf.
  - now apply ret_ok in H as [-> _].
  - cbn [for_each] in H. apply bind_ok in H as (f1 & w1 & H1 & H).
    apply (IH _ _ _ _ H). exact (unmarshall_field_no_bare _ _ _ _ _ _ _ H1 Hf).
Qed.

Lemma no_bare_attrs_set (k : string) (v : pyval) (acc : dict) :
  no_bare_attrs acc ->
  (k =? "sorting_style") && is_enum v = false ->
  (forall F, (k =? "fields") = true -> v = PDict F ->
             no_bare_style F = true) ->
  no_bare_attrs (dict_set k v acc).
Proof.
  intros [H1 H2] Hv HF. split; [now apply no_bare_set|].
  intros F Hg. destruct (k =? "fields") eqn:E.
  - apply String.eqb_eq in E. subst k.
    rewrite dict_get_set_same in Hg. injection Hg as ->.
    now apply (HF F).
  - rewrite dict_get_set_other in Hg by (now rewrite String.eqb_sym).
    now apply H2.
Qed.

Lemma no_bare_attrs_json (k : string) (v : pyval) (acc : dict) :
  no_bare_attrs acc -> is_json v = true -> no_bare_attrs (dict_set k v acc).
Proof.
  intros Hacc Hv. apply no_bare_attrs_set; [exact Hacc| |].
  - rewrite (json_not_enum _ Hv). apply andb_false_r.
  - intros F _ ->. now apply json_no_bare.
Qed.

Lemma no_bare_attrs_plain (k : string) (v : pyval) (acc : dict) :
  no_bare_attrs acc ->
  (k =? "sorting_style") = false -> (k =? "fields") = false ->
  no_bare_attrs (dict_set k v acc).
Proof.
  intros Hacc Hs Hf. apply no_bare_attrs_set; [exact Hacc|now rewrite Hs|].
  intros F HF. rewrite Hf in HF. discriminate HF.
Qed.

Lemma unmarshall_item_no_bare (data acc res : dict) (entry : string * pyval)
    (w w' : world) :
  unmarshall_item json_loads data acc entry w = (Ok res, w') ->
  is_json (snd entry) = true ->
  no_bare_attrs acc -> no_bare_attrs res.
Proof.
  destruct entry as [k v]. unfold unmarshall_item. cbv zeta. cbn [fst snd].
  intros H Hv Hacc.
  destruct (k =? "recordName").
  { apply ret_ok in H as [-> _]. now apply no_bare_attrs_plain. }
  destruct (in_list k ["created"; "deleted"; "modified"]) eqn:Ein.
  { apply bind_ok in H as (parsed & w1 & _ & H).
    apply bind_ok in H as (timestamp & w2 & _ & H).
    apply bind_ok in H as (user_id & w3 & _ & H).
    apply bind_ok in H as (device_id & w4 & _ & H).
    apply ret_ok in H as [-> _].
    assert (Hk : k = "created" \/ k = "deleted" \/ k = "modified").
    { unfold in_list in Ein. cbn [existsb] in Ein.
      apply orb_prop in Ein as [E|Ein]; [left; now apply String.eqb_eq|].
      apply orb_prop in Ein as [E|Ein];
        [right; left; now apply String.eqb_eq|].
      apply orb_prop in Ein as [E|Ein]; [|discriminate].
      right; right; now apply String.eqb_eq. }
    destruct Hk as [-> | [-> | ->]];
      repeat (apply no_bare_attrs_plain; [|reflexivity|reflexivity]);
      exact Hacc. }
  destruct (k =? "expirationTime").
  { apply bind_ok in H as (t & w1 & _ & H).
    apply ret_ok in H as [-> _]. now apply no_bare_attrs_plain. }
  destruct (k =? "fields").
  { apply bind_ok in H as (entries & w1 & _ & H).
    apply bind_ok in H as (fields & w2 & Hfields & H).
    apply bind_ok in H as (fields2 & w3 & Hname & H).
    apply ret_ok in H as [-> _].
    apply unmarshall_fields_no_bare in Hfields; [|reflexivity].
    apply no_bare_attrs_set; [exact Hacc|reflexivity|].
    intros F _ HF. injection HF as <-.
    destruct (negb (dict_mem "name" fields)
              || negb (truthy (dict_get_default fields "name" PNone))).
    - apply emit_then_ok in Hname as (w4 & Hname).
      apply ret_ok in Hname as [-> _]. now apply no_bare_set.
    - now apply ret_ok in Hname as [-> _]. }
  destruct (k =? "share").
  { apply ret_ok in H as [-> _]. now apply no_bare_attrs_json. }
  destruct (is_primitive v).
  { apply ret_ok in H as [-> _]. now apply no_bare_attrs_json. }
  apply emit_then_ok in H as (w1 & H).
  apply ret_ok in H as [-> _]. now apply no_bare_attrs_json.
Qed.

Lemma unmarshall_items_no_bare (data : dict) (entries : dict) :
  forall (acc res : dict) (w w' : world),
    for_each (unmarshall_item json_loads data) entries acc w = (Ok res, w') ->
    forallb (fun kv => is_json (snd kv)) entries = true ->
    no_bare_attrs acc -> no_bare_attrs res.
Proof.
  induction entries as [|e entries IH]; intros acc res w w' H Hj Hacc.
  - now apply ret_ok in H as [-> _].
  - cbn [for_each] in H. apply bind_ok in H as (acc1 & w1 & H1 & H).
    cbn [forallb] in Hj. apply andb_prop in Hj as [Hj1 Hj].
    apply (IH _ _ _ _ H Hj).
    exact (unmarshall_item_no_bare _ _ _ _ _ _ H1 Hj1 Hacc).
Qed.

Lemma merge_fields_no_bare (entries : dict) :
  forall (data final : dict) (w w' : world),
    for_each merge_field entries data w = (Ok final, w') ->
    no_bare_style entries = true -> no_bare_style data = true ->
    no_bare_style final = true.
Proof.
  induction entries as [|[k v] entries IH]; intros data final w w' H He Hd.
  - now apply ret_ok in H as [-> _].
  - rewrite merge_fields_cons in H.
    destruct (dict_mem k data && negb (in_list k ["name"])); [discriminate|].
    unfold no_bare_style in He. cbn [forallb fst snd] in He.
    apply andb_prop in He as [He1 He].
    apply (IH _ _ _ _ H He). apply no_bare_set; [exact Hd|].
    now apply negb_true_iff in He1.
Qed.

Lemma flatten_record_no_bare (record : pyval) (final : dict) (w w' : world) :
  flatten_record json_loads record w = (Ok final, w') ->
  is_json record = true -> no_bare_style final = true.
Proof.
  intros H Hj.
  apply flatten_record_inv in H
    as (r & t & data & rid & F & nm & merged & -> & _ & _ & Hdata & Hrid
        & HF & Hnm & Hm & ->).
  unfold unmarshall in Hdata.
  assert (Hd : no_bare_attrs data).
  { apply (unmarshall_items_no_bare _ _ _ _ _ _ Hdata).
    - now apply json_entries.
    - split; [reflexivity|discriminate]. }
  destruct Hd as [Hd1 Hd2].
  do 2 apply no_bare_remove.
  apply (merge_fields_no_bare _ _ _ _ _ Hm).
  - apply no_bare_remove. now apply Hd2.
  - unfold prepared. apply no_bare_remove.
    do 3 (apply no_bare_set; [|reflexivity]).
    now apply no_bare_remove.
Qed.

(** X19.  No list built from a JSON record can be exported: the sorting
    style that unmarshalling leaves is no enumeration member, so [to_dict]
    and [to_json] raise [AttributeError] on every list that [from_record]
    returns. *)
Theorem built_list_not_exported (py_str : pyval -> string)
    (json_dumps : pyval -> result string) (record : pyval)
    (l : RemindersList) (w w' : world) :
  is_json record = true ->
  from_record json_loads record w = (Ok l, w') ->
  to_dict py_str l = Raise AttributeError
  /\ to_json py_str json_dumps l = Raise AttributeError.
Proof.
  intros Hj H. apply from_record_inv in H as (cls & Hflat & _).
  pose proof (flatten_record_no_bare _ _ _ _ Hflat Hj) as Hnb.
  assert (Hbase : BaseRemindersList_to_dict py_str l = Raise AttributeError).
  { unfold BaseRemindersList_to_dict, attribute, dict_get_default.
    destruct (dict_get "sorting_style" (attrs l)) as [v|] eqn:Hg;
      [|reflexivity].
    pose proof (no_bare_get _ _ Hnb Hg) as Hv.
    destruct v; try reflexivity. discriminate Hv. }
  assert (Hdict : to_dict py_str l = Raise AttributeError).
  { unfold to_dict, SharedRemindersList_to_dict, EnhancedRemindersList_to_dict,
      StandardRemindersList_to_dict.
    rewrite Hbase. now destruct (variant l). }
  split; [exact Hdict|]. unfold to_json. now rewrite Hdict.
Qed.

(** ** Caches *)

(** X20.  The reminders of a list are fetched once: the first access to
    [reminders] yields an empty mapping, and with the cache it leaves every
    later access yields that mapping again and leaves the session as it
    is. *)
Theorem reminders_fetched_once (self : RemindersList) (zone : ZoneObject)
    (w w' : world) (fetched : list (key * pyval)) (cache : reminders_cache) :
  BaseRemindersList_reminders self zone None w = (Ok (fetched, cache), w') ->
  fetched = []
  /\ forall w2,
       BaseRemindersList_reminders self zone cache w2 = (Ok ([], cache), w2).
Proof.
  unfold BaseRemindersList_reminders. intros H.
  apply bind_ok in H as (f & w1 & Hf & H).
  apply ret_ok in H as [H _]. injection H as -> ->.
  unfold _fetch_reminders in Hf.
  apply bind_ok in Hf as (records & w2 & _ & Hf).
  apply ret_ok in Hf as [-> _]. now split.
Qed.

Lemma query_loop_first (pending : list pyval) (query : dict)
    (records sent : list pyval) :
  more_pages query = true ->
  exists posted,
    snd (query_loop pending query records sent) = sent ++ PDict query :: posted.
Proof.
  intros Hm.
  assert (Hone : sent ++ [PDict query] = sent ++ PDict query :: []) by
    reflexivity.
  destruct pending as [|response pending]; cbn [query_loop]; rewrite Hm.
  - now exists [].
  - destruct (getitem response "records") as [b|]; [|now exists []].
    destruct (iterate b) as [b'|]; [|now exists []].
    destruct (get_method response "continuationMarker" PNone) as [m|];
      [|now exists []].
    destruct (query_loop_posts pending
                (dict_set "continuationMarker" m query) (records ++ b')
                (sent ++ [PDict query])) as (posted & -> & _).
    exists posted. now rewrite <- app_assoc.
Qed.

Lemma quiet_requests {A B} (m : M A) (k : A -> M B) (w : world) :
  (forall a, quiet (k a)) ->
  requests (snd (bind m k w)) = requests (snd (m w)).
Proof.
  intros Hk. unfold bind. destruct (m w) as [[a|e] w1]; [|reflexivity].
  now destruct (Hk a w1) as (_ & -> & _).
Qed.

Lemma quiet_store_list (lists : lists_dict) (record : RemindersList) :
  quiet (store_list lists record).
Proof.
  unfold store_list. destruct (hash_key (name record));
    [apply quiet_ret|apply quiet_raise].
Qed.

Lemma quiet_from_record (record : pyval) :
  quiet (from_record json_loads record).
Proof.
  unfold from_record. apply quiet_bind.
  - unfold flatten_record.
    repeat first [ apply quiet_unmarshall | quiet_step ].
    unfold merge_field. repeat quiet_step.
  - intros data. apply quiet_reraising; [|apply quiet_emit].
    repeat first [ apply quiet_from_data | quiet_step ].
Qed.

(** X21.  An empty cache of lists is never trusted: while the container
    holds no list, every access to [records] posts the query for the lists
    again. *)
Theorem empty_lists_fetched_again (service : RemindersService) (w : world) :
  _lists service = [] ->
  exists posted,
    requests (snd (ListsContainer_records json_loads service w))
    = requests w ++ PDict (lists_query (zone service)) :: posted.
Proof.
  intros Hempty. unfold ListsContainer_records. rewrite Hempty.
  unfold _fetch_lists. rewrite quiet_requests.
  - unfold fetch_all.
    destruct (query_loop_first (responses w) (lists_query (zone service)) []
                (requests w) eq_refl) as (posted & Hp).
    exists posted.
    destruct (query_loop (responses w) (lists_query (zone service)) []
                (requests w)) as [[r pending] sent].
    exact Hp.
  - intros records. apply quiet_bind.
    + unfold comprehension. apply quiet_for_each. intros acc x.
      apply quiet_bind; [apply quiet_from_record|intros y; apply quiet_ret].
    + intros objs. apply quiet_for_each. intros acc x.
      apply quiet_store_list.
Qed.

(** X22.  [refresh] always asks again: whatever the list holds, it posts
    the query for the reminders of the list first, and the cache it leaves
    when it returns is the empty mapping. *)
Theorem refresh_fetches_again (self : RemindersList) (zone : ZoneObject)
    (w : world) :
  (exists posted,
      requests (snd (BaseRemindersList_refresh self zone w))
      = requests w
        ++ PDict (_get_fetch_reminders_payload self zone (Some false)
                    (Some true)) :: posted)
  /\ forall cache w',
       BaseRemindersList_refresh self zone w = (Ok cache, w') ->
       cache = Some [].
Proof.
  split.
  - unfold BaseRemindersList_refresh, _fetch_reminders.
    rewrite quiet_requests by (intros a; apply quiet_ret).
    rewrite quiet_requests by (intros a; apply quiet_ret).
    unfold fetch_all.
    destruct (query_loop_first (responses w)
                (_get_fetch_reminders_payload self zone (Some false)
                   (Some true)) [] (requests w) eq_refl) as (posted & Hp).
    exists posted.
    destruct (query_loop (responses w)
                (_get_fetch_reminders_payload self zone (Some false)
                   (Some true)) [] (requests w)) as [[r pending] sent].
    exact Hp.
  - intros cache w' H. unfold BaseRemindersList_refresh in H.
    apply bind_ok in H as (fetched & w1 & Hf & H).
    apply ret_ok in H as [-> _].
    unfold _fetch_reminders in Hf.
    apply bind_ok in Hf as (records & w2 & _ & Hf).
    now apply ret_ok in Hf as [-> _].
Qed.

End MoreProperties.

(** * The further properties on the samples *)

Lemma fetch_all_conserves_witness :
  fetch_all (lists_query sample_zone)
    (session [response_of page_token; response_of page_absent;
              response_of page_null] [] [])
  = (Ok [PStr "r2"; PStr "r1"],
     session [response_of page_null]
       [PDict (lists_query sample_zone);
        PDict (dict_set "continuationMarker" (PStr "tok1")
                 (lists_query sample_zone))] [])
  /\ exists consumed posted,
       [response_of page_token; response_of page_absent; response_of page_null]
       = consumed ++ [response_of page_null]
       /\ [PStr "r2"; PStr "r1"] = flat_map records_of consumed
       /\ [PDict (lists_query sample_zone);
           PDict (dict_set "continuationMarker" (PStr "tok1")
                    (lists_query sample_zone))] = [] ++ posted
       /\ List.length posted = List.length consumed
       /\ @nil diag = [].
Proof.
  split; [reflexivity|].
  exact (fetch_all_conserves (lists_query sample_zone)
           (session [response_of page_token; response_of page_absent;
                     response_of page_null] [] [])
           (session [response_of page_null]
              [PDict (lists_query sample_zone);
               PDict (dict_set "continuationMarker" (PStr "tok1")
                        (lists_query sample_zone))] [])
           [PStr "r2"; PStr "r1"] eq_refl).
Defined.

Lemma service_init_scoped_witness :
  RemindersService_init json_loads_sample sample_start_world
  = (Ok sample_started, sample_start_world')
  /\ zone sample_started = sample_zone
  /\ List.length (all_zones sample_started) = 2%nat
  /\ exists w1 w2,
       _fetch_zones sample_start_world = (Ok (all_zones sample_started), w1)
       /\ find (named "Reminders") (all_zones sample_started)
          = Some (zone sample_started)
       /\ named "Reminders" (zone sample_started) = true
       /\ _fetch_lists json_loads_sample (zone sample_started) w1
          = (Ok (_lists sample_started), w2)
       /\ responses sample_start_world' = responses w2
       /\ requests sample_start_world' = requests w2
       /\ log sample_start_world'
          = log w2
            ++ [Printed
                  (PInt (Z.of_nat (List.length (_lists sample_started))));
                Warning "Refreshed lists: %d"
                  [PInt (Z.of_nat (List.length (_lists sample_started)))]].
Proof.
  split; [reflexivity|split; [reflexivity|split; [reflexivity|]]].
  exact (service_init_scoped json_loads_sample sample_start_world
           sample_start_world' sample_started eq_refl).
Defined.

Lemma get_by_name_is_get_by_id_witness :
  _fetch_lists json_loads_sample sample_zone sample_lists_world
  = (Ok sample_lists, sample_lists_world')
  /\ get_by_name json_loads_sample sample_service "Work" (sample_world [])
     = match get_by_id json_loads_sample sample_service "Work"
               (sample_world []) with
       | (Ok (l, _), wx') => (Ok l, wx')
       | (Raise _, wx') =>
           (Raise (KeyError ("List '" ++ "Work" ++ "' not found.")%string),
            wx')
       end
  /\ exists records w1,
       fetch_all (lists_query sample_zone) sample_lists_world
       = (Ok records, w1)
       /\ List.length sample_lists <= List.length records.
Proof.
  split; [reflexivity|].
  destruct (get_by_name_is_get_by_id json_loads_sample sample_zone
              sample_lists_world sample_lists_world' sample_lists eq_refl)
    as [Hsame Hcount].
  split; [|exact Hcount].
  apply Hsame; [reflexivity|discriminate].
Defined.


Lemma boolean_field_is_one_witness :
  in_list (to_snake_case "IsGroup") BOOLEAN_FIELDS = true
  /\ unmarshall_field json_loads_sample [] (PStr "L1") []
       ("IsGroup", wire "INT64" (PInt 2)) (sample_world [])
     = (Ok [("is_group", PBool false)], sample_world []).
Proof.
  split; [reflexivity|].
  exact (boolean_field_is_one json_loads_sample [] [] (PStr "L1")
           (wire "INT64" (PInt 2)) "IsGroup" 2 (sample_world [])
           eq_refl eq_refl eq_refl).
Defined.

Lemma unmarshall_attribute_names_witness :
  unmarshall json_loads_sample sample_no_zone (sample_world [])
  = (Ok sample_no_zone_data, sample_world [])
  /\ forall a, dict_mem a sample_no_zone_data
               = existsb (fun e => produces e a) sample_no_zone.
Proof.
  split; [reflexivity|].
  exact (unmarshall_attribute_names json_loads_sample sample_no_zone
           sample_no_zone_data (sample_world []) (sample_world []) eq_refl).
Defined.

Lemma unmarshalled_name_truthy_witness :
  unique_keys sample_no_zone = true
  /\ plain_fields sample_no_zone = true
  /\ dict_mem "fields" sample_no_zone = true
  /\ exists F v,
       dict_get "fields" sample_no_zone_data = Some (PDict F)
       /\ dict_get "name" F = Some v
       /\ truthy v = true.
Proof.
  repeat (split; [reflexivity|]).
  exact (unmarshalled_name_truthy json_loads_sample sample_no_zone
           sample_no_zone_data (sample_world []) (sample_world [])
           eq_refl eq_refl eq_refl eq_refl).
Defined.

Lemma from_record_identity_witness :
  from_record json_loads_sample (PDict sample_standard) (sample_world [])
  = (Ok sample_standard_list, sample_world sample_log)
  /\ name sample_standard_list = PStr "Groceries"
  /\ list_id sample_standard_list = PStr "L1"
  /\ exists r data F,
       PDict sample_standard = PDict r
       /\ unmarshall json_loads_sample r (sample_world [])
          = (Ok data, sample_world sample_log)
       /\ dict_get "fields" data = Some (PDict F)
       /\ dict_get "name" F = Some (name sample_standard_list)
       /\ dict_get "record_id" data = Some (list_id sample_standard_list).
Proof.
  repeat (split; [reflexivity|]).
  exact (from_record_identity json_loads_sample (PDict sample_standard)
           sample_standard_list (sample_world []) (sample_world sample_log)
           eq_refl).
Defined.


Lemma standard_arguments_accepted_witness :
  from_data Standard (attrs sample_shared_list) (sample_world [])
  = (Ok {| variant := Standard; attrs := attrs sample_shared_list |},
     sample_world [])
  /\ from_data Enhanced (attrs sample_shared_list) (sample_world [])
     = (Ok {| variant := Enhanced; attrs := attrs sample_shared_list |},
        sample_world [])
  /\ from_data Shared (attrs sample_shared_list) (sample_world [])
     = (Ok {| variant := Shared; attrs := attrs sample_shared_list |},
        sample_world []).
Proof.
  split; [reflexivity|].
  destruct (standard_arguments_accepted (attrs sample_shared_list)
              {| variant := Standard; attrs := attrs sample_shared_list |}
              (sample_world []) (sample_world []) eq_refl)
    as [Henhanced Hshared].
  split; [exact Henhanced|]. apply Hshared. reflexivity.
Defined.

Lemma from_record_attributes_witness :
  from_record json_loads_sample (PDict sample_shared) (sample_world [])
  = (Ok sample_shared_list, sample_world sample_log)
  /\ forallb (fun k => dict_mem k (attrs sample_shared_list)) BASE_REQUIRED
     = true
  /\ keys_within PARAMETERS (attrs sample_shared_list) = true
  /\ (variant sample_shared_list = Standard ->
      dict_mem "should_auto_categorize_items" (attrs sample_shared_list)
      = false).
Proof.
  split; [reflexivity|].
  exact (from_record_attributes json_loads_sample (PDict sample_shared)
           sample_shared_list (sample_world []) (sample_world sample_log)
           eq_refl).
Defined.

Lemma built_list_not_exported_witness :
  is_json (PDict sample_enhanced) = true
  /\ from_record json_loads_sample (PDict sample_enhanced) (sample_world [])
     = (Ok sample_enhanced_list, sample_world sample_log)
  /\ to_dict sample_str sample_enhanced_list = Raise AttributeError
  /\ to_json sample_str sample_dumps sample_enhanced_list
     = Raise AttributeError.
Proof.
  split; [reflexivity|split; [reflexivity|]].
  exact (built_list_not_exported json_loads_sample sample_str sample_dumps
           (PDict sample_enhanced) sample_enhanced_list (sample_world [])
           (sample_world sample_log) eq_refl eq_refl).
Defined.

Lemma reminders_fetched_once_witness :
  BaseRemindersList_reminders sample_standard_list sample_zone None
    (session [response_of page_null] [] [])
  = (Ok ([], Some []),
     session []
       [PDict (_get_fetch_reminders_payload sample_standard_list sample_zone
                 (Some false) (Some true))] [])
  /\ forall w2,
       BaseRemindersList_reminders sample_standard_list sample_zone (Some [])
         w2
       = (Ok ([], Some []), w2).
Proof.
  split; [reflexivity|].
  exact (proj2 (reminders_fetched_once sample_standard_list sample_zone
                  (session [response_of page_null] [] [])
                  (session []
                     [PDict (_get_fetch_reminders_payload sample_standard_list
                               sample_zone (Some false) (Some true))] [])
                  [] (Some []) eq_refl)).
Defined.

Lemma empty_lists_fetched_again_witness :
  _lists sample_empty_service = []
  /\ exists posted,
       requests (snd (ListsContainer_records json_loads_sample
                        sample_empty_service
                        (session [response_of page_null] [] [])))
       = [] ++ PDict (lists_query sample_zone) :: posted.
Proof.
  split; [reflexivity|].
  exact (empty_lists_fetched_again json_loads_sample sample_empty_service
           (session [response_of page_null] [] []) eq_refl).
Defined.
